(** * squidle_campaign_downloader: a shallow embedding and its properties

    The Python module [squidle_campaign_downloader.py] resolves campaign
    names to deployments, enumerates the media of every deployment through
    a paginated listing, fetches one pose record per image through a
    process pool, assembles a pandas manifest, stores it as CSV and
    downloads every image through a second process pool.

    The embedding follows the module function by function.  Python values
    are a tagged union, exceptions are an error type, the file system and
    the sequence of observable operations (prints, HTTP requests, file
    system calls, pool life cycle) are explicit.  Library functions whose
    text is not part of the module (the JSON codec, str-to-number parsing,
    the HTTP server) are parameters of the model; a small concrete
    instance is given for evaluation. *)

From Stdlib Require Import ZArith String Ascii List Bool Lia Permutation.
From Stdlib Require Import DecimalString DecimalZ.
From Stdlib Require Import Floats.SpecFloat.
From stdpp Require Import gmap strings list.

Set Default Proof Using "Type".
Set Warnings "-register-all".

(** ** Python exceptions and fallible results *)

Inductive exn :=
| JSONDecodeError
| TypeError
| AttributeError
| ValueError
| OverflowError
| ConnectionError
| FileExistsError
| FileNotFoundError
| NotADirectoryError
| IsADirectoryError.

Inductive result (A : Type) :=
| Ok (a : A)
| Raise (e : exn).
Arguments Ok {A} a.
Arguments Raise {A} e.

Definition rbind {A B} (r : result A) (k : A → result B) : result B :=
  match r with
  | Ok a => k a
  | Raise e => Raise e
  end.

Definition of_option {A} (e : exn) (o : option A) : result A :=
  match o with
  | Some a => Ok a
  | None => Raise e
  end.

Definition is_ok {A} (r : result A) : bool :=
  match r with Ok _ => true | Raise _ => false end.

(** ** Python floats: IEEE-754 binary64 *)

Definition float := spec_float.
Definition prec : Z := 53.
Definition emax : Z := 1024.

(** The exact (not yet rounded) float image of an integer. *)
Definition exact_of_Z (z : Z) : float :=
  match z with
  | Z0 => S754_zero false
  | Zpos p => S754_finite false p 0
  | Zneg p => S754_finite true p 0
  end.

(** [float(z)] on an int: round to nearest even, OverflowError beyond the
    binary64 range. *)
Definition float_of_Z (z : Z) : result float :=
  match binary_normalize prec emax z 0 false with
  | S754_infinity _ => Raise OverflowError
  | f => Ok f
  end.

(** [a / b] on two ints: the correctly rounded quotient. *)
Definition int_truediv (a b : Z) : result float :=
  match SFdiv prec emax (exact_of_Z a) (exact_of_Z b) with
  | S754_infinity _ => Raise OverflowError
  | f => Ok f
  end.

Definition signed_mantissa (s : bool) (m : positive) : Z :=
  if s then Zneg m else Zpos m.

(** [math.ceil(f)] *)
Definition math_ceil (f : float) : result Z :=
  match f with
  | S754_zero _ => Ok 0%Z
  | S754_infinity _ => Raise OverflowError
  | S754_nan => Raise ValueError
  | S754_finite s m e =>
      Ok (match e with
          | Zneg k => (- ((- signed_mantissa s m) / 2 ^ Zpos k))%Z
          | _ => (signed_mantissa s m * 2 ^ e)%Z
          end)
  end.

(** [int(f)] on a float: truncation towards zero. *)
Definition int_of_float (f : float) : result Z :=
  match f with
  | S754_zero _ => Ok 0%Z
  | S754_infinity _ => Raise OverflowError
  | S754_nan => Raise ValueError
  | S754_finite s m e =>
      Ok (match e with
          | Zneg k => (signed_mantissa s m ÷ 2 ^ Zpos k)%Z
          | _ => (signed_mantissa s m * 2 ^ e)%Z
          end)
  end.

(** ** Python values, as far as JSON and the manifest need them *)

Inductive pyval :=
| PyNone
| PyBool (b : bool)
| PyInt (z : Z)
| PyFloat (f : float)
| PyStr (s : string)
| PyList (l : list pyval)
| PyDict (kv : list (string * pyval)).

Definition is_int (v : pyval) : bool :=
  match v with PyInt _ => true | _ => false end.

Definition is_float (v : pyval) : bool :=
  match v with PyFloat _ => true | _ => false end.

(** A dict literal or a decoded JSON object is an association list in
    insertion order; lookup takes the first binding of the key. *)
Fixpoint assoc {V} (k : string) (kv : list (string * V)) : option V :=
  match kv with
  | [] => None
  | (k', v) :: rest => if String.eqb k k' then Some v else assoc k rest
  end.

(** [d.get(k)]: only dicts have [get]; a missing key gives [None]. *)
Definition py_get (d : pyval) (k : string) : result pyval :=
  match d with
  | PyDict kv => Ok (default PyNone (assoc k kv))
  | _ => Raise AttributeError
  end.

Fixpoint chars (s : string) : list pyval :=
  match s with
  | EmptyString => []
  | String c s' => PyStr (String c EmptyString) :: chars s'
  end.

(** [for obj in v]: the items a [for] loop visits. *)
Definition py_iter (v : pyval) : result (list pyval) :=
  match v with
  | PyList l => Ok l
  | PyDict kv => Ok (map (λ p, PyStr (fst p)) kv)
  | PyStr s => Ok (chars s)
  | _ => Raise TypeError
  end.

Definition Z_of_bool (b : bool) : Z := if b then 1%Z else 0%Z.

(** [str(z)] on an int. *)
Definition str_of_Z (z : Z) : string := NilZero.string_of_int (Z.to_int z).

(** ** Strings *)

(** [needle in s] *)
Fixpoint contains (needle s : string) : bool :=
  String.prefix needle s ||
  match s with
  | EmptyString => false
  | String _ s' => contains needle s'
  end.

(** Code points below 256 for which [str.isspace] holds. *)
Definition is_space (c : ascii) : bool :=
  let n := nat_of_ascii c in
  ((9 <=? n) && (n <=? 13)) || ((28 <=? n) && (n <=? 32))
  || (n =? 133) || (n =? 160).

(** [s.rstrip()] *)
Fixpoint rstrip (s : string) : string :=
  match s with
  | EmptyString => EmptyString
  | String c s' =>
      match rstrip s' with
      | EmptyString => if is_space c then EmptyString else String c EmptyString
      | r => String c r
      end
  end.

(** ** Paths and the file system *)

(** A [pathlib.Path] is the list of its parts; an absolute path begins
    with the part ["/"]. *)
Definition path := list string.

(** The pieces of [s] between slashes. *)
Fixpoint split_slash (s : string) : list string :=
  match s with
  | EmptyString => [EmptyString]
  | String c s' =>
      if Ascii.eqb c "/" then EmptyString :: split_slash s'
      else match split_slash s' with
           | h :: t => String c h :: t
           | [] => [String c EmptyString]
           end
  end.

Definition is_part (s : string) : bool :=
  negb (String.eqb s "") && negb (String.eqb s ".").

(** [Path(s)]: empty parts and ["."] are dropped, a leading slash is the
    root. *)
Definition Path (s : string) : path :=
  (if String.prefix "/" s then ["/"%string] else [])
  ++ filter (λ c, Is_true (is_part c)) (split_slash s).

Definition is_absolute (p : path) : bool :=
  match p with
  | r :: _ => String.eqb r "/"
  | [] => false
  end.

(** [p / s] *)
Definition path_div (p : path) (s : string) : path :=
  if is_absolute (Path s) then Path s else p ++ Path s.

(** [p.parent] *)
Definition parent (p : path) : path := removelast p.

Record filesystem := {
  dirs : gset path;
  files : gmap path string
}.

(** The empty path is the directory that relative paths start from; it
    always exists. *)
Definition is_dir (fs : filesystem) (p : path) : bool :=
  match p with
  | [] => true
  | _ => bool_decide (p ∈ dirs fs)
  end.

Definition is_file (fs : filesystem) (p : path) : bool :=
  match files fs !! p with
  | Some _ => true
  | None => false
  end.

(** [p.exists()] *)
Definition path_exists (fs : filesystem) (p : path) : bool :=
  is_dir fs p || is_file fs p.

Definition add_dir (fs : filesystem) (p : path) : filesystem :=
  {| dirs := {[p]} ∪ dirs fs; files := files fs |}.

(** [os.mkdir(p)] *)
Definition os_mkdir (fs : filesystem) (p : path) : result filesystem :=
  if path_exists fs p then Raise FileExistsError
  else if is_dir fs (parent p) then Ok (add_dir fs p)
  else if is_file fs (parent p) then Raise NotADirectoryError
  else Raise FileNotFoundError.

(** [p.mkdir(parents=True, exist_ok=True)], after pathlib: try [os.mkdir];
    on FileNotFoundError make the parent first; any other OSError is
    forgiven when [p] is a directory.  [fuel] bounds the climb towards the
    root and is the number of parts of [p]. *)
Fixpoint mkdir_parents (fuel : nat) (fs : filesystem) (p : path)
  : result filesystem :=
  match os_mkdir fs p with
  | Ok fs' => Ok fs'
  | Raise FileNotFoundError =>
      match fuel with
      | O => Raise FileNotFoundError
      | S n =>
          rbind (mkdir_parents n fs (parent p)) (λ fs1,
            match os_mkdir fs1 p with
            | Ok fs2 => Ok fs2
            | Raise e => if is_dir fs1 p then Ok fs1 else Raise e
            end)
      end
  | Raise e => if is_dir fs p then Ok fs else Raise e
  end.

Definition mkdir (fs : filesystem) (p : path) : result filesystem :=
  mkdir_parents (length p) fs p.

(** [with open(p, "wb") as h: h.write(data)] *)
Definition write_file (fs : filesystem) (p : path) (data : string)
  : result filesystem :=
  if is_dir fs p then Raise IsADirectoryError
  else if is_dir fs (parent p) then
    Ok {| dirs := dirs fs; files := <[p := data]> (files fs) |}
  else if is_file fs (parent p) then Raise NotADirectoryError
  else Raise FileNotFoundError.

(** ** Observable operations and the effect monad *)

Inductive event :=
| EvPrint (args : list pyval)
| EvSessionGet (url : string) (params : list (string * pyval))
| EvRequestsGet (url : string)
| EvMkdir (p : path)
| EvWriteFile (p : path)
| EvToCsv (p : path)
| EvPoolOpen (n : nat)
| EvPoolClose
| EvPoolJoin.

(** A computation runs from a file system and yields its outcome, the
    file system it leaves and the operations it performed, in order.  An
    exception keeps the effects performed before it. *)
Definition M (A : Type) : Type :=
  filesystem → result A * filesystem * list event.

Definition ret {A} (a : A) : M A := λ fs, (Ok a, fs, []).

Definition raise {A} (e : exn) : M A := λ fs, (Raise e, fs, []).

Definition bind {A B} (m : M A) (k : A → M B) : M B :=
  λ fs,
    match m fs with
    | (Ok a, fs1, t1) =>
        match k a fs1 with
        | (r, fs2, t2) => (r, fs2, t1 ++ t2)
        end
    | (Raise e, fs1, t1) => (Raise e, fs1, t1)
    end.

Definition lift {A} (r : result A) : M A := λ fs, (r, fs, []).

Definition emit (e : event) : M unit := λ fs, (Ok tt, fs, [e]).

Definition get_fs : M filesystem := λ fs, (Ok fs, fs, []).

(** A file-system call: on success the file system is replaced. *)
Definition fs_call (op : filesystem → result filesystem) : M unit :=
  λ fs,
    match op fs with
    | Ok fs' => (Ok tt, fs', [])
    | Raise e => (Raise e, fs, [])
    end.

Declare Scope py_scope.
Delimit Scope py_scope with py.
Notation "'let*' x ':=' m 'in' k" := (bind m (λ x, k))
  (at level 10, x name, m at level 100, k at level 200) : py_scope.
Notation "'do' m 'in' k" := (bind m (λ _, k))
  (at level 10, m at level 100, k at level 200) : py_scope.
Notation "'let?' x ':=' r 'in' k" := (rbind r (λ x, k))
  (at level 10, x name, r at level 100, k at level 200) : py_scope.
Open Scope py_scope.

Definition outcome {A} (x : result A * filesystem * list event) : result A :=
  fst (fst x).
Definition final_fs {A} (x : result A * filesystem * list event)
  : filesystem := snd (fst x).
Definition trace {A} (x : result A * filesystem * list event) : list event :=
  snd x.

(** [for x in l: s = body(s, x)] with the loop state threaded through. *)
Fixpoint for_each {S A} (body : S → A → M S) (s : S) (l : list A) : M S :=
  match l with
  | [] => ret s
  | x :: l' => let* s' := body s x in for_each body s' l'
  end.

(** [range(a, b)] *)
Definition range (a b : Z) : list Z :=
  map (λ i, (a + Z.of_nat i)%Z) (seq 0 (Z.to_nat (b - a))).

(** ** pandas data frames *)

(** A frame is its column labels and its rows; a row binds column labels
    to cells.  The row index is positional ([RangeIndex]). *)
Record DataFrame := {
  columns : list string;
  rows : list (list (string * pyval))
}.

Definition NaN : pyval := PyFloat S754_nan.

(** [pd.DataFrame({label: values, ...})] *)
Definition pd_DataFrame (d : list (string * list pyval)) : result DataFrame :=
  let n := match d with [] => 0 | (_, vs) :: _ => length vs end in
  if forallb (λ kv, length (snd kv) =? n) d then
    Ok {| columns := map fst d;
          rows := map (λ i, map (λ kv, (fst kv, nth i (snd kv) PyNone)) d)
                      (seq 0 n) |}
  else Raise ValueError.

Definition reindex (cols : list string) (r : list (string * pyval))
  : list (string * pyval) :=
  map (λ c, (c, default NaN (assoc c r))) cols.

Definition mem_string (s : string) (l : list string) : bool :=
  existsb (String.eqb s) l.

(** [pd.concat([a, b], ignore_index=True)]: the rows of [a] then those of
    [b], over the union of the columns. *)
Definition pd_concat (a b : DataFrame) : DataFrame :=
  let cols :=
    columns a ++ filter (λ c, Is_true (negb (mem_string c (columns a))))
                        (columns b) in
  {| columns := cols; rows := map (reindex cols) (rows a ++ rows b) |}.

(** [list(df[label])] *)
Definition column (label : string) (df : DataFrame) : list pyval :=
  map (λ r, default NaN (assoc label r)) (rows df).

Definition int64_min : Z := (- 2 ^ 63)%Z.
Definition int64_max : Z := (2 ^ 63 - 1)%Z.

(** ** The model, over the library functions and the server *)

(** Library functions the module calls but does not define. *)
Record library := {
  (** [json.loads]; [None] is JSONDecodeError *)
  json_loads : string → option pyval;
  (** [json.dumps] *)
  json_dumps : pyval → string;
  (** [float(s)] on a str; [None] is ValueError *)
  float_of_str : string → option float;
  (** [int(s)] on a str; [None] is ValueError *)
  int_of_str : string → option Z;
  (** [str(v)] on floats, lists and dicts *)
  str_other : pyval → string;
  (** [urlparse(s)] raises ValueError on some inputs *)
  urlparse_ok : string → bool;
  (** the text pandas writes for one cell *)
  csv_cell : pyval → string
}.

(** The catalog server as seen through [requests]: the session carries
    the authentication header, plain [requests.get] does not. *)
Record network := {
  session_get : string → list (string * pyval) → result string;
  requests_get : string → result string
}.

Section Model.
Context (L : library) (N : network).

(** [float(v)] *)
Definition py_float (v : pyval) : result float :=
  match v with
  | PyFloat f => Ok f
  | PyInt z => float_of_Z z
  | PyBool b => float_of_Z (Z_of_bool b)
  | PyStr s => of_option ValueError (float_of_str L s)
  | _ => Raise TypeError
  end.

(** [int(v)] *)
Definition py_int (v : pyval) : result Z :=
  match v with
  | PyInt z => Ok z
  | PyBool b => Ok (Z_of_bool b)
  | PyFloat f => int_of_float f
  | PyStr s => of_option ValueError (int_of_str L s)
  | _ => Raise TypeError
  end.

(** [str(v)] *)
Definition py_str (v : pyval) : string :=
  match v with
  | PyStr s => s
  | PyInt z => str_of_Z z
  | PyNone => "None"
  | PyBool true => "True"
  | PyBool false => "False"
  | _ => str_other L v
  end.

(** [v / k] for an int [k] *)
Definition py_truediv (v : pyval) (k : Z) : result float :=
  match v with
  | PyInt z => int_truediv z k
  | PyBool b => int_truediv (Z_of_bool b) k
  | PyFloat f => Ok (SFdiv prec emax f (exact_of_Z k))
  | _ => Raise TypeError
  end.

(** [v.rstrip()]: only str has it among the values a cell can hold. *)
Definition py_rstrip (v : pyval) : result string :=
  match v with
  | PyStr s => Ok (rstrip s)
  | _ => Raise AttributeError
  end.

Definition loads (text : string) : M pyval :=
  lift (of_option JSONDecodeError (json_loads L text)).

Definition print (args : list pyval) : M unit := emit (EvPrint args).

Definition s_get (url : string) (params : list (string * pyval)) : M string :=
  do emit (EvSessionGet url params) in lift (session_get N url params).

Definition r_get (url : string) : M string :=
  do emit (EvRequestsGet url) in lift (requests_get N url).

(** [series.astype(int)] on one cell: a 64-bit integer or an error. *)
Definition astype_int_cell (v : pyval) : result pyval :=
  rbind (py_int v) (λ z,
    if ((int64_min <=? z) && (z <=? int64_max))%Z then Ok (PyInt z)
    else Raise OverflowError).

Fixpoint set_cell (label : string) (v : pyval) (r : list (string * pyval))
  : list (string * pyval) :=
  match r with
  | [] => []
  | (k, x) :: r' =>
      if String.eqb label k then (k, v) :: r' else (k, x) :: set_cell label v r'
  end.

Fixpoint map_result {A B} (f : A → result B) (l : list A) : result (list B) :=
  match l with
  | [] => Ok []
  | x :: l' => rbind (f x) (λ y, rbind (map_result f l') (λ ys, Ok (y :: ys)))
  end.

(** [df.label = df.label.astype(int)] *)
Definition astype_int (label : string) (df : DataFrame) : result DataFrame :=
  rbind (map_result (λ r,
           rbind (astype_int_cell (default NaN (assoc label r)))
                 (λ v, Ok (set_cell label v r)))
         (rows df))
    (λ rs, Ok {| columns := columns df; rows := rs |}).

Definition join_with (sep : string) (l : list string) : string :=
  match l with
  | [] => EmptyString
  | x :: l' => fold_left (λ acc y, acc +:+ sep +:+ y) l' x
  end.

Definition newline : string := String "010" EmptyString.

(** The lines of [df.to_csv(...)] with pandas' defaults: a header line,
    then one line per row, each beginning with the index field (unnamed in
    the header). *)
Definition csv_lines (df : DataFrame) : list (list string) :=
  (EmptyString :: columns df)
  :: imap (λ i r, str_of_Z (Z.of_nat i)
                  :: map (λ c, csv_cell L (default NaN (assoc c r)))
                         (columns df))
          (rows df).

Definition csv_text (df : DataFrame) : string :=
  String.concat EmptyString
    (map (λ fields, join_with "," fields +:+ newline) (csv_lines df)).

(** [df.to_csv(p)] *)
Definition to_csv (df : DataFrame) (p : path) : M unit :=
  do emit (EvToCsv p) in fs_call (λ fs, write_file fs p (csv_text df)).

(** *** imap_unordered_bar *)

(** The order in which a pool of [W] workers completes the tasks [pending]
    (given in submission order).  At any moment the tasks being worked on
    are among the first [W] unfinished ones; [sched] names, step by step,
    which of them finishes next. *)
Fixpoint completion_order {A} (W : nat) (sched : list nat)
  (pending : list A) (fuel : nat) : list A :=
  match fuel with
  | O => []
  | S fuel' =>
      let k := hd 0 sched `mod` (W `min` length pending) in
      match pending !! k with
      | Some a =>
          a :: completion_order W (tl sched) (delete k pending) fuel'
      | None => []
      end
  end.

(** [p.imap_unordered(func, args)] *)
Definition imap_unordered {A} (W : nat) (sched : list nat) (args : list A)
  : list A :=
  completion_order W sched args (length args).

(** [imap_unordered_bar(func, args, n_processes)].  A task's exception is
    raised again in the parent when its result is reached.  The progress
    bars write to stderr and are left out. *)
Definition imap_unordered_bar {A B} (sched : list nat) (func : A → M B)
  (args : list A) (n_processes : nat) : M (list B) :=
  match n_processes with
  | O => raise ValueError
  | _ =>
      do emit (EvPoolOpen n_processes) in
      let* res_list :=
        for_each (λ res_list a,
                    let* res := func a in ret (res_list ++ [res]))
                 [] (imap_unordered n_processes sched args) in
      do emit EvPoolClose in
      do emit EvPoolJoin in
      ret res_list
  end.

(** *** find_deployments *)

Definition campaign_request (campaign_name : string) : pyval :=
  PyDict [("filters"%string,
    PyList [PyDict [("name"%string, PyStr "campaign");
                    ("op"%string, PyStr "has");
                    ("val"%string,
                      PyDict [("name"%string, PyStr "name");
                              ("op"%string, PyStr "eq");
                              ("val"%string, PyStr campaign_name)])]])].

Definition campaign_params (campaign_name : string)
  : list (string * pyval) :=
  [("q"%string, PyStr (json_dumps L (campaign_request campaign_name)));
   ("single"%string, PyBool true)].

Definition server_error_line : string :=
  newline +:+ "Server error" +:+ newline.

(** [for obj in objs: acc.append(obj.get("id"))] *)
Definition append_ids (acc : list pyval) (objs : list pyval)
  : M (list pyval) :=
  for_each (λ acc obj,
              let* i := lift (py_get obj "id") in ret (acc ++ [i]))
           acc objs.

(** The body of the loop over campaign names. *)
Definition find_deployments_body (url : string) (deployment_list : list pyval)
  (campaign_name : string) : M (list pyval) :=
  do print [PyStr "Looking for campaign:"; PyStr campaign_name] in
  let* r_text := s_get (url +:+ "/api/deployment")
                       (campaign_params campaign_name) in
  if contains "<h1>500</h1>" r_text then
    do print [PyStr server_error_line] in
    ret deployment_list
  else
    let* pretty_json := loads r_text in
    let* objects := lift (py_get pretty_json "objects") in
    let* objs := lift (py_iter objects) in
    let* deployment_list := append_ids deployment_list objs in
    do print [PyStr " - Found deployment IDs:"; PyList deployment_list] in
    ret deployment_list.

Definition find_deployments (campaign_list : list string) (url : string)
  : M (list pyval) :=
  for_each (find_deployments_body url) [] campaign_list.

(** *** find_images_in_deployments *)

Definition results_per_page : Z := 100.

Definition media_request (deployment : pyval) : pyval :=
  PyDict [("filters"%string,
    PyList [PyDict [("name"%string, PyStr "deployment_id");
                    ("op"%string, PyStr "eq");
                    ("val"%string, deployment)]])].

Definition media_params (deployment : pyval) (page : Z)
  : list (string * pyval) :=
  [("q"%string, PyStr (json_dumps L (media_request deployment)));
   ("page"%string, PyInt page);
   ("results_per_page"%string, PyInt results_per_page);
   ("single"%string, PyBool true)].

(** [for obj in objs: image_ids.append(obj.get("id"));
    image_deployment.append(deployment)] *)
Definition append_media (deployment : pyval)
  (acc : list pyval * list pyval) (objs : list pyval)
  : M (list pyval * list pyval) :=
  for_each (λ acc obj,
              let* i := lift (py_get obj "id") in
              ret (fst acc ++ [i], snd acc ++ [deployment]))
           acc objs.

(** [math.ceil(num_results / results_per_page)] *)
Definition num_pages_of (num_results : pyval) : result Z :=
  rbind (py_truediv num_results results_per_page) math_ceil.

(** The body of the loop over the later pages. *)
Definition media_page_body (url : string) (deployment : pyval)
  (acc : list pyval * list pyval) (page : Z)
  : M (list pyval * list pyval) :=
  let* r_text := s_get (url +:+ "/api/media") (media_params deployment page) in
  let* pretty_json := loads r_text in
  let* num_results := lift (py_get pretty_json "num_results") in
  let* objects := lift (py_get pretty_json "objects") in
  let* objs := lift (py_iter objects) in
  append_media deployment acc objs.

(** The body of the loop over deployments. *)
Definition find_images_body (url : string) (acc : list pyval * list pyval)
  (deployment : pyval) : M (list pyval * list pyval) :=
  do print [PyStr "Looking for images in deployment:"; deployment] in
  let* r_text := s_get (url +:+ "/api/media") (media_params deployment 1) in
  let* pretty_json := loads r_text in
  let* num_results := lift (py_get pretty_json "num_results") in
  let* objects := lift (py_get pretty_json "objects") in
  let* objs := lift (py_iter objects) in
  let* acc := append_media deployment acc objs in
  let* num_pages := lift (num_pages_of num_results) in
  for_each (media_page_body url deployment) acc (range 2 num_pages).

Definition find_images_in_deployments (deployment_list : list pyval)
  (url : string) : M (list pyval * list pyval) :=
  for_each (find_images_body url) ([], []) deployment_list.

(** *** get_info_to_database *)

Definition manifest_columns : list string :=
  ["timestamp"; "lat"; "lon"; "dep"; "alt"; "image_url"; "image_id";
   "deployment_id"]%string.

(** The row of one image: the cells in the order the dict literal
    evaluates them. *)
Definition manifest_row (timestamp : pyval) (lat lon dep alt : float)
  (image_url : pyval) (image_id deployment_id : Z)
  : list (string * list pyval) :=
  [("timestamp"%string, [timestamp]);
   ("lat"%string, [PyFloat lat]);
   ("lon"%string, [PyFloat lon]);
   ("dep"%string, [PyFloat dep]);
   ("alt"%string, [PyFloat alt]);
   ("image_url"%string, [image_url]);
   ("image_id"%string, [PyInt image_id]);
   ("deployment_id"%string, [PyInt deployment_id])].

(** The part of [get_info_to_database] after the request: decode the
    answer and build the one-row frame. *)
Definition pose_frame (image_id image_deployment : pyval) (r_text : string)
  : result DataFrame :=
  let? pretty_json := of_option JSONDecodeError (json_loads L r_text) in
  let? media := py_get pretty_json "media" in
  let? pose := py_get pretty_json "pose" in
  let? timestamp := py_get pose "timestamp" in
  let? lat := rbind (py_get pose "lat") py_float in
  let? lon := rbind (py_get pose "lon") py_float in
  let? dep := rbind (py_get pose "dep") py_float in
  let? alt := rbind (py_get pose "alt") py_float in
  let? image_url := py_get media "path_best" in
  let? iid := py_int image_id in
  let? did := py_int image_deployment in
  pd_DataFrame (manifest_row timestamp lat lon dep alt image_url iid did).

Definition pose_url (url : string) (image_id : pyval) : string :=
  url +:+ "/api/media_poses/" +:+ py_str image_id.

(** [url] is the module-level name set by the main block. *)
Definition get_info_to_database (url : string)
  (zipped_image_id_image_deployment : pyval * pyval) : M DataFrame :=
  let '(image_id, image_deployment) := zipped_image_id_image_deployment in
  let* r_text := r_get (pose_url url image_id) in
  lift (pose_frame image_id image_deployment r_text).

(** *** get_image_pose_and_url *)

Definition default_processes : nat := 8.

Definition get_image_pose_and_url (sched : list nat) (url : string)
  (image_ids image_deployment : list pyval) : M DataFrame :=
  let* database :=
    lift (pd_DataFrame (map (λ c, (c, [])) manifest_columns)) in
  let zipped_image_ids_deployment := zip image_ids image_deployment in
  let* results :=
    imap_unordered_bar sched (get_info_to_database url)
                       zipped_image_ids_deployment default_processes in
  let database := fold_left pd_concat results database in
  let* database := lift (astype_int "deployment_id" database) in
  let* database := lift (astype_int "image_id" database) in
  ret database.

(** *** download_image_url *)

Definition download_image_url
  (zipped_url_deployment_image_id : pyval * pyval * pyval * string)
  : M path :=
  let '(url, deployment_id, image_id, output_folder) :=
    zipped_url_deployment_image_id in
  let* stripped := lift (py_rstrip url) in
  do lift (if urlparse_ok L stripped then Ok tt else Raise ValueError) in
  let* deployment_id := lift (py_int deployment_id) in
  let* image_id := lift (py_int image_id) in
  let deployment_path := path_div (Path output_folder) (str_of_Z deployment_id) in
  let* fs := get_fs in
  do (if path_exists fs deployment_path then ret tt
      else do emit (EvMkdir deployment_path) in
           fs_call (λ fs, mkdir fs deployment_path)) in
  let filename := path_div deployment_path (str_of_Z image_id +:+ ".png") in
  let* stripped := lift (py_rstrip url) in
  let* img_data := r_get stripped in
  do emit (EvWriteFile filename) in
  do fs_call (λ fs, write_file fs filename img_data) in
  ret filename.

(** *** The main block *)

Definition zip3 {A B C D} (d : D) (la : list A) (lb : list B) (lc : list C)
  : list (A * B * C * D) :=
  map (λ x, (fst (fst x), snd (fst x), snd x, d)) (zip (zip la lb) lc).

Definition main (sched_meta sched_download : list nat)
  (campaign_list : list string) (url output : string) : M unit :=
  let* deployment_list := find_deployments campaign_list url in
  let* found := find_images_in_deployments deployment_list url in
  let image_list := fst found in
  let image_deployment_list := snd found in
  do print [PyStr "Getting image poses and URLs (not downloading data yet)"] in
  let* database :=
    get_image_pose_and_url sched_meta url image_list image_deployment_list in
  let output_folder := Path output in
  let* fs := get_fs in
  do (if path_exists fs output_folder then ret tt
      else do emit (EvMkdir output_folder) in
           fs_call (λ fs, mkdir fs output_folder)) in
  do print [PyStr "Storing dataset CSV containing image URLs"] in
  do to_csv database (path_div output_folder "filelist.csv") in
  do print [PyStr "Downloading images..."] in
  let image_url_list := column "image_url" database in
  let image_id_list := column "image_id" database in
  let deployment_id_list := column "deployment_id" database in
  let zipped_list :=
    zip3 output image_url_list deployment_id_list image_id_list in
  let* _ := imap_unordered_bar sched_download download_image_url zipped_list
                               default_processes in
  print [PyStr "Done"].

End Model.

(** ** A concrete library, for evaluating the model

    A JSON codec for the fragment the catalog uses (no [\u] escapes), and
    decimal parsers for [int(s)] and [float(s)].  The theorems below hold
    for every library; this one makes their hypotheses checkable on
    examples. *)
Module Demo.

Definition dquote : ascii := "034"%char.
Definition backslash : ascii := "092"%char.

Definition is_json_ws (c : ascii) : bool :=
  let n := nat_of_ascii c in (n =? 32) || (n =? 9) || (n =? 10) || (n =? 13).

Fixpoint skip_ws (s : string) : string :=
  match s with
  | String c s' => if is_json_ws c then skip_ws s' else s
  | EmptyString => s
  end.

Definition digit_val (c : ascii) : option Z :=
  let n := nat_of_ascii c in
  if (48 <=? n) && (n <=? 57) then Some (Z.of_nat (n - 48)) else None.

(** The digits at the front of [s]: their value, their number, the rest. *)
Fixpoint read_digits (s : string) (acc : Z) (cnt : nat) : Z * nat * string :=
  match s with
  | String c s' =>
      match digit_val c with
      | Some d => read_digits s' (10 * acc + d)%Z (S cnt)
      | None => (acc, cnt, s)
      end
  | EmptyString => (acc, cnt, s)
  end.

(** The binary64 nearest to [(-1)^neg * m * 10^e]. *)
Definition decimal_to_float (neg : bool) (m e : Z) : float :=
  if (m =? 0)%Z then S754_zero neg
  else
    let sm := if neg then (- m)%Z else m in
    if (0 <=? e)%Z then binary_normalize prec emax (sm * 10 ^ e) 0 false
    else SFdiv prec emax (exact_of_Z sm) (exact_of_Z (10 ^ (- e))).

Definition read_sign (s : string) : bool * string :=
  match s with
  | String "-" s' => (true, s')
  | _ => (false, s)
  end.

(** A JSON number at the front of [s]. *)
Definition read_number (s : string) : option (pyval * string) :=
  let '(neg, s1) := read_sign s in
  let '(ip, ic, s2) := read_digits s1 0 0 in
  let leading_zero := String.prefix "0" s1 && (1 <? ic) in
  if (ic =? 0) || leading_zero then None
  else
    let frac :=
      match s2 with
      | String "." s3 =>
          let '(fp, fc, s4) := read_digits s3 ip 0 in
          if fc =? 0 then None else Some (fp, fc, s4, true)
      | _ => Some (ip, 0, s2, false)
      end in
    match frac with
    | None => None
    | Some (mant, fc, s5, has_frac) =>
        let expo :=
          match s5 with
          | String c s6 =>
              if Ascii.eqb c "e" || Ascii.eqb c "E" then
                let '(eneg, s7) :=
                  match s6 with
                  | String "+" r => (false, r)
                  | String "-" r => (true, r)
                  | _ => (false, s6)
                  end in
                let '(ev, ec, s8) := read_digits s7 0 0 in
                if ec =? 0 then None
                else Some (if eneg then (- ev)%Z else ev, s8, true)
              else Some (0%Z, s5, false)
          | EmptyString => Some (0%Z, s5, false)
          end in
        match expo with
        | None => None
        | Some (ev, rest, has_exp) =>
            if has_frac || has_exp then
              Some (PyFloat (decimal_to_float neg mant (ev - Z.of_nat fc)), rest)
            else Some (PyInt (if neg then (- mant)%Z else mant), rest)
        end
    end.

(** The body of a string literal, after the opening quote. *)
Fixpoint read_string (s : string) : option (string * string) :=
  match s with
  | EmptyString => None
  | String c s' =>
      if Ascii.eqb c dquote then Some (EmptyString, s')
      else if Ascii.eqb c backslash then
        match s' with
        | String e s'' =>
            let esc :=
              if Ascii.eqb e dquote then Some dquote
              else if Ascii.eqb e backslash then Some backslash
              else if Ascii.eqb e "/" then Some "/"%char
              else if Ascii.eqb e "n" then Some "010"%char
              else if Ascii.eqb e "t" then Some "009"%char
              else if Ascii.eqb e "r" then Some "013"%char
              else if Ascii.eqb e "b" then Some "008"%char
              else if Ascii.eqb e "f" then Some "012"%char
              else None in
            match esc, read_string s'' with
            | Some x, Some (body, rest) => Some (String x body, rest)
            | _, _ => None
            end
        | EmptyString => None
        end
      else if nat_of_ascii c <? 32 then None
      else match read_string s' with
           | Some (body, rest) => Some (String c body, rest)
           | None => None
           end
  end.

(** [d[k] = v] on an insertion-ordered dict. *)
Fixpoint dict_set (k : string) (v : pyval) (kv : list (string * pyval))
  : list (string * pyval) :=
  match kv with
  | [] => [(k, v)]
  | (k', x) :: kv' =>
      if String.eqb k k' then (k', v) :: kv' else (k', x) :: dict_set k v kv'
  end.

Definition strip_prefix (p s : string) : option string :=
  if String.prefix p s
  then Some (String.substring (String.length p)
                              (String.length s - String.length p) s)
  else None.

(** One JSON value at the front of [s]. *)
Fixpoint read_value (fuel : nat) (s : string) : option (pyval * string) :=
  match fuel with
  | O => None
  | S n =>
      let s := skip_ws s in
      match s with
      | EmptyString => None
      | String c s' =>
          if Ascii.eqb c "n" then
            option_map (pair PyNone) (strip_prefix "null" s)
          else if Ascii.eqb c "t" then
            option_map (pair (PyBool true)) (strip_prefix "true" s)
          else if Ascii.eqb c "f" then
            option_map (pair (PyBool false)) (strip_prefix "false" s)
          else if Ascii.eqb c dquote then
            option_map (λ x, (PyStr (fst x), snd x)) (read_string s')
          else if Ascii.eqb c "[" then
            match skip_ws s' with
            | String "]" rest => Some (PyList [], rest)
            | _ =>
                (fix items (k : nat) (s : string) (acc : list pyval) :=
                   match k with
                   | O => None
                   | S k' =>
                       match read_value n s with
                       | None => None
                       | Some (v, rest) =>
                           match skip_ws rest with
                           | String "," rest' => items k' rest' (acc ++ [v])
                           | String "]" rest' =>
                               Some (PyList (acc ++ [v]), rest')
                           | _ => None
                           end
                       end
                   end) n s' []
            end
          else if Ascii.eqb c "{" then
            match skip_ws s' with
            | String "}" rest => Some (PyDict [], rest)
            | _ =>
                (fix members (k : nat) (s : string)
                     (acc : list (string * pyval)) :=
                   match k with
                   | O => None
                   | S k' =>
                       match skip_ws s with
                       | String q s1 =>
                           if Ascii.eqb q dquote then
                             match read_string s1 with
                             | None => None
                             | Some (key, s2) =>
                                 match skip_ws s2 with
                                 | String ":" s3 =>
                                     match read_value n s3 with
                                     | None => None
                                     | Some (v, rest) =>
                                         let acc' := dict_set key v acc in
                                         match skip_ws rest with
                                         | String "," rest' =>
                                             members k' rest' acc'
                                         | String "}" rest' =>
                                             Some (PyDict acc', rest')
                                         | _ => None
                                         end
                                     end
                                 | _ => None
                                 end
                             end
                           else None
                       | EmptyString => None
                       end
                   end) n s' []
            end
          else read_number s
      end
  end.

(** [json.loads] on the fragment. *)
Definition loads (s : string) : option pyval :=
  match read_value (S (String.length s)) s with
  | Some (v, rest) =>
      match skip_ws rest with
      | EmptyString => Some v
      | _ => None
      end
  | None => None
  end.

Fixpoint escape (s : string) : string :=
  match s with
  | EmptyString => EmptyString
  | String c s' =>
      if Ascii.eqb c dquote || Ascii.eqb c backslash
      then String backslash (String c (escape s'))
      else String c (escape s')
  end.

Definition quote (s : string) : string :=
  String dquote (escape s) +:+ String dquote EmptyString.

(** [str(f)] for the floats with an integer value; other floats do not
    occur in the requests the module sends. *)
Definition str_float (f : float) : string :=
  match f with
  | S754_nan => "nan"
  | S754_infinity false => "inf"
  | S754_infinity true => "-inf"
  | _ => match int_of_float f with
         | Ok z => str_of_Z z +:+ ".0"
         | Raise _ => "nan"
         end
  end.

(** [json.dumps] with its default separators. *)
Fixpoint dumps (v : pyval) : string :=
  match v with
  | PyNone => "null"
  | PyBool true => "true"
  | PyBool false => "false"
  | PyInt z => str_of_Z z
  | PyFloat f => str_float f
  | PyStr s => quote s
  | PyList l => "[" +:+ join_with ", " (map dumps l) +:+ "]"
  | PyDict kv =>
      "{" +:+ join_with ", "
                (map (λ p, match p with
                           | (k, x) => quote k +:+ ": " +:+ dumps x
                           end) kv)
      +:+ "}"
  end.

Fixpoint lstrip (s : string) : string :=
  match s with
  | String c s' => if is_space c then lstrip s' else s
  | EmptyString => s
  end.

(** [int(s)]: optional sign, decimal digits, surrounding white space. *)
Definition int_of_str (s : string) : option Z :=
  let s := lstrip (rstrip s) in
  let '(neg, s1) :=
    match s with
    | String "+" r => (false, r)
    | String "-" r => (true, r)
    | _ => (false, s)
    end in
  match read_digits s1 0 0 with
  | (v, S _, EmptyString) => Some (if neg then (- v)%Z else v)
  | _ => None
  end.

(** [float(s)]: a decimal numeral with optional fraction and exponent. *)
Definition float_of_str (s : string) : option float :=
  let s := lstrip (rstrip s) in
  let s := match s with String "+" r => r | _ => s end in
  match read_number s with
  | Some (PyFloat f, EmptyString) => Some f
  | Some (PyInt z, EmptyString) =>
      Some (binary_normalize prec emax z 0 false)
  | _ => None
  end.

Definition str_other (v : pyval) : string :=
  match v with
  | PyFloat f => str_float f
  | _ => dumps v
  end.

Definition csv_cell (v : pyval) : string :=
  match v with
  | PyStr s => s
  | PyInt z => str_of_Z z
  | PyFloat f => str_float f
  | PyNone => EmptyString
  | _ => dumps v
  end.

(** [urlparse] rejects bracketed hosts that are not IP literals; the
    examples use none. *)
Definition urlparse_plain (s : string) : bool :=
  negb (contains "[" s || contains "]" s).

Definition lib : library :=
  Build_library loads dumps float_of_str int_of_str str_other urlparse_plain
                csv_cell.

(** *** A small catalog server *)

Definition base_url : string := "https://soi.squidle.org".

(** Campaign names and their deployments. *)
Definition campaigns : list (string * list Z) :=
  [("demo_campaign"%string, [10; 11]%Z);
   ("small"%string, [12]%Z);
   ("overlap"%string, [12; 10]%Z)].

(** The media of a deployment: 150 images in deployment 10, none in 11,
    two in 12. *)
Definition media_of (d : Z) : list Z :=
  if (d =? 10)%Z then map (λ i, (1000 + Z.of_nat i)%Z) (seq 0 150)
  else if (d =? 12)%Z then [500; 501]%Z
  else [].

Definition obj_of_id (i : Z) : pyval := PyDict [("id"%string, PyInt i)].

Definition listing (total : nat) (ids : list Z) : string :=
  dumps (PyDict [("num_results"%string, PyInt (Z.of_nat total));
                 ("objects"%string, PyList (map obj_of_id ids))]).

(** The first filter of the query carried by the [q] parameter. *)
Definition first_filter (params : list (string * pyval)) : option pyval :=
  match assoc "q" params with
  | Some (PyStr q) =>
      match loads q with
      | Some (PyDict top) =>
          match assoc "filters" top with
          | Some (PyList (f :: _)) => Some f
          | _ => None
          end
      | _ => None
      end
  | _ => None
  end.

Definition error_500 : string := "<html><h1>500</h1></html>".
Definition error_404 : string := "<html><h1>404</h1></html>".

(** The deployment listing: the campaign ["down"] hits a server error
    page, the campaign ["gone"] a page that is neither JSON nor the 500
    page. *)
Definition deployment_endpoint (params : list (string * pyval))
  : result string :=
  match first_filter params with
  | Some (PyDict f) =>
      match assoc "val" f with
      | Some (PyDict inner) =>
          match assoc "val" inner with
          | Some (PyStr name) =>
              if String.eqb name "down" then Ok error_500
              else if String.eqb name "gone" then Ok error_404
              else
                let ds := default [] (assoc name campaigns) in
                Ok (listing (length ds) ds)
          | _ => Ok error_404
          end
      | _ => Ok error_404
      end
  | _ => Ok error_404
  end.

(** The media listing, 1-based pages of [results_per_page] objects; the
    listing of deployment 99 is a server error page. *)
Definition media_endpoint (params : list (string * pyval)) : result string :=
  match first_filter params, assoc "page" params,
        assoc "results_per_page" params with
  | Some (PyDict f), Some (PyInt page), Some (PyInt per_page) =>
      match assoc "val" f with
      | Some (PyInt d) =>
          if (d =? 99)%Z then Ok error_500
          else
            let all := media_of d in
            let size := Z.to_nat per_page in
            Ok (listing (length all)
                        (take size (drop (Z.to_nat (page - 1) * size) all)))
      | _ => Ok error_404
      end
  | _, _, _ => Ok error_404
  end.

Definition image_url_of (i : Z) : string :=
  "http://x/" +:+ str_of_Z i +:+ ".jpg".

(** The pose record of an image: the coordinates come as strings, as a
    float and as an int. *)
Definition pose_text (i : Z) : string :=
  dumps (PyDict
    [("media"%string, PyDict [("path_best"%string, PyStr (image_url_of i))]);
     ("pose"%string,
       PyDict [("timestamp"%string, PyStr "2020-01-01T00:00:00");
               ("lat"%string, PyStr "50.5");
               ("lon"%string, PyStr "-4.25");
               ("dep"%string, PyInt 12);
               ("alt"%string, PyFloat (exact_of_Z 3))])]).

(** Plain [requests.get]: pose records under the API, image bytes under
    [http://x/]; image 666 has no pose record. *)
Definition plain_get (url : string) : result string :=
  match strip_prefix (base_url +:+ "/api/media_poses/") url with
  | Some rest =>
      match int_of_str rest with
      | Some i => if (i =? 666)%Z then Ok error_500 else Ok (pose_text i)
      | None => Ok error_404
      end
  | None =>
      match strip_prefix "http://x/" url with
      | Some rest => Ok ("bytes of " +:+ rest)
      | None => Raise ConnectionError
      end
  end.

Definition net : network := {|
  session_get := λ url params,
    if String.eqb url (base_url +:+ "/api/deployment")
    then deployment_endpoint params
    else if String.eqb url (base_url +:+ "/api/media")
    then media_endpoint params
    else Raise ConnectionError;
  requests_get := plain_get
|}.

(** A file system with nothing but the starting directory. *)
Definition empty_fs : filesystem := {| dirs := ∅; files := ∅ |}.

End Demo.

(** ** Specification-side functions

    What one request yields, as a pure function of the server's answer.
    The loops of the module are compared with these. *)
Section Answers.
Context (L : library) (N : network).

(** The ids of the objects of a decoded listing. *)
Definition listing_ids (pretty_json : pyval) : result (list pyval) :=
  rbind (py_get pretty_json "objects") (λ objects,
  rbind (py_iter objects) (λ objs,
  map_result (λ obj, py_get obj "id") objs)).

(** The deployments the server reports for one campaign name: none when
    the answer carries the 500 marker. *)
Definition campaign_matches (url campaign_name : string)
  : result (list pyval) :=
  rbind (session_get N (url +:+ "/api/deployment")
                     (campaign_params L campaign_name)) (λ r_text,
  if contains "<h1>500</h1>" r_text then Ok []
  else rbind (of_option JSONDecodeError (json_loads L r_text)) listing_ids).

(** The frame one unit of work yields: one request, then the decoding. *)
Definition unit_frame (url : string) (p : pyval * pyval) : result DataFrame :=
  let? r_text := requests_get N (pose_url L url (fst p)) in
  pose_frame L (fst p) (snd p) r_text.

(** The cells of the row of one image. *)
Definition cells (timestamp : pyval) (lat lon dep alt : float)
  (image_url : pyval) (image_id deployment_id : Z) : list (string * pyval) :=
  [("timestamp"%string, timestamp);
   ("lat"%string, PyFloat lat);
   ("lon"%string, PyFloat lon);
   ("dep"%string, PyFloat dep);
   ("alt"%string, PyFloat alt);
   ("image_url"%string, image_url);
   ("image_id"%string, PyInt image_id);
   ("deployment_id"%string, PyInt deployment_id)].

(** The cells that identify a manifest row. *)
Definition row_key (r : list (string * pyval)) : option pyval * option pyval :=
  (assoc "image_id" r, assoc "deployment_id" r).

(** The identity of an input pair, as 64-bit integers. *)
Definition pair_key (p : pyval * pyval) : result (pyval * pyval) :=
  rbind (astype_int_cell L (fst p)) (λ i,
  rbind (astype_int_cell L (snd p)) (λ d, Ok (i, d))).

Definition has_int (label : string) (r : list (string * pyval)) : bool :=
  match assoc label r with
  | Some (PyInt _) => true
  | _ => false
  end.

Definition has_float (label : string) (r : list (string * pyval)) : bool :=
  match assoc label r with
  | Some (PyFloat _) => true
  | _ => false
  end.

End Answers.

(** Counting the operations of one kind in a trace. *)
Definition is_session_get (e : event) : bool :=
  match e with EvSessionGet _ _ => true | _ => false end.
Definition is_requests_get (e : event) : bool :=
  match e with EvRequestsGet _ => true | _ => false end.
Definition is_to_csv (e : event) : bool :=
  match e with EvToCsv _ => true | _ => false end.
Definition is_write_file (e : event) : bool :=
  match e with EvWriteFile _ => true | _ => false end.
Definition is_pool_open (e : event) : bool :=
  match e with EvPoolOpen _ => true | _ => false end.

Definition count (p : event → bool) (t : list event) : nat :=
  length (List.filter p t).

(** * Properties *)

(** ** The effect monad *)

Lemma bind_ret {A B} (a : A) (k : A → M B) fs : bind (ret a) k fs = k a fs.
Proof. unfold bind, ret. destruct (k a fs) as [[r f] t]. reflexivity. Qed.

Lemma bind_lift_ok {A B} (a : A) (k : A → M B) fs :
  bind (lift (Ok a)) k fs = k a fs.
Proof. apply (bind_ret a k fs). Qed.

Lemma bind_lift_raise {A B} (e : exn) (k : A → M B) fs :
  bind (lift (Raise e)) k fs = (Raise e, fs, []).
Proof. reflexivity. Qed.

Lemma bind_emit {B} (e : event) (k : unit → M B) fs :
  bind (emit e) k fs
  = (outcome (k tt fs), final_fs (k tt fs), e :: trace (k tt fs)).
Proof. unfold bind, emit. destruct (k tt fs) as [[r f] t]. reflexivity. Qed.

Lemma bind_assoc {A B C} (m : M A) (k : A → M B) (h : B → M C) fs :
  bind (bind m k) h fs = bind m (λ a, bind (k a) h) fs.
Proof.
  unfold bind. destruct (m fs) as [[[a|e] f1] t1]; [|reflexivity].
  destruct (k a f1) as [[[b|e] f2] t2]; [|reflexivity].
  destruct (h b f2) as [[r f3] t3]. by rewrite app_assoc.
Qed.

Lemma outcome_bind {A B} (m : M A) (k : A → M B) fs :
  outcome (bind m k fs)
  = match outcome (m fs) with
    | Ok a => outcome (k a (final_fs (m fs)))
    | Raise e => Raise e
    end.
Proof.
  unfold bind. destruct (m fs) as [[[a|e] f1] t1]; [|reflexivity].
  cbn. destruct (k a f1) as [[r f2] t2]. reflexivity.
Qed.



(** A computation whose outcome does not depend on the file system and
    which leaves it alone. *)
Definition answers {A} (m : M A) (r : result A) : Prop :=
  ∀ fs, outcome (m fs) = r ∧ final_fs (m fs) = fs.

Lemma answers_lift {A} (r : result A) : answers (lift r) r.
Proof. by intros fs. Qed.

Lemma answers_ret {A} (a : A) : answers (ret a) (Ok a).
Proof. by intros fs. Qed.

Lemma answers_emit e : answers (emit e) (Ok tt).
Proof. by intros fs. Qed.

Lemma answers_bind {A B} (m : M A) (k : A → M B) r (f : A → result B) :
  answers m r → (∀ a, r = Ok a → answers (k a) (f a)) →
  answers (bind m k) (rbind r f).
Proof.
  intros Hm Hk fs. destruct (Hm fs) as [Ho Hf]. unfold bind.
  destruct (m fs) as [[[a|e] f1] t1]; cbn in Ho, Hf; subst; [|done].
  destruct (Hk a eq_refl fs) as [Ho Hf].
  destruct (k a fs) as [[r f2] t2]. by cbn in *.
Qed.

Lemma answers_for_each_append {A B} (func : A → M B) (f : A → result B)
  (l : list A) (acc : list B) :
  (∀ a, answers (func a) (f a)) →
  answers (for_each (λ acc x, bind (func x) (λ y, ret (acc ++ [y]))) acc l)
          (rbind (map_result f l) (λ ys, Ok (acc ++ ys))).
Proof.
  intros Hfunc. revert acc.
  induction l as [|x l IH]; intros acc; cbn [for_each map_result].
  - cbn. rewrite app_nil_r. apply answers_ret.
  - assert (Hstep : answers
              (let* s' := let* y := func x in ret (acc ++ [y])
               in for_each (λ acc x, let* y := func x in ret (acc ++ [y])) s' l)
              (let? s' := let? y := f x in Ok (acc ++ [y])
               in let? ys := map_result f l in Ok (s' ++ ys))).
    { apply answers_bind.
      - apply answers_bind; [apply Hfunc|]. intros y _. apply answers_ret.
      - intros s' _. apply IH. }
    intros fs. destruct (Hstep fs) as [-> ->]. split; [|done].
    destruct (f x) as [y|e]; cbn; [|done].
    destruct (map_result f l); cbn; [|done]. by rewrite <- app_assoc.
Qed.

(** ** find_deployments *)
Section Resolver.
Context (L : library) (N : network).

Lemma append_ids_answers (acc objs : list pyval) :
  answers (append_ids acc objs)
          (rbind (map_result (λ obj, py_get obj "id") objs)
                 (λ ids, Ok (acc ++ ids))).
Proof.
  apply (answers_for_each_append (λ obj, lift (py_get obj "id"))).
  intros obj. apply answers_lift.
Qed.

Lemma find_deployments_body_answers url acc campaign_name :
  answers (find_deployments_body L N url acc campaign_name)
          (rbind (campaign_matches L N url campaign_name)
                 (λ ids, Ok (acc ++ ids))).
Proof.
  intros fs. unfold find_deployments_body, campaign_matches, print, s_get, loads.
  rewrite bind_emit, bind_assoc, bind_emit. cbn [outcome final_fs fst snd].
  destruct (session_get N _ _) as [text|e]; [|done].
  rewrite bind_lift_ok. cbn [rbind].
  destruct (contains "<h1>500</h1>" text).
  { rewrite bind_emit. cbn. by rewrite app_nil_r. }
  destruct (json_loads L text) as [pj|]; [|done].
  cbn [of_option]. rewrite bind_lift_ok. cbn [rbind]. unfold listing_ids.
  destruct (py_get pj "objects") as [objects|e]; [|done].
  rewrite bind_lift_ok. cbn [rbind].
  destruct (py_iter objects) as [objs|e]; [|done].
  rewrite bind_lift_ok. cbn [rbind].
  destruct (append_ids_answers acc objs fs) as [Ho Hf].
  unfold bind. destruct (append_ids acc objs fs) as [[[ids|e] f1] t1];
    cbn in Ho, Hf; subst; rewrite <- Ho; done.
Qed.

Lemma for_each_answers_concat {A B} (body : list B → A → M (list B))
  (g : A → result (list B)) :
  (∀ acc x, answers (body acc x) (rbind (g x) (λ ys, Ok (acc ++ ys)))) →
  ∀ l acc, answers (for_each body acc l)
                   (rbind (map_result g l) (λ ls, Ok (acc ++ concat ls))).
Proof.
  intros Hbody. induction l as [|x l IH]; intros acc; cbn [for_each map_result].
  - cbn. rewrite app_nil_r. apply answers_ret.
  - intros fs. destruct (Hbody acc x fs) as [Ho Hf]. unfold bind.
    destruct (body acc x fs) as [[[s1|e] f1] t1]; cbn in Ho, Hf; subst.
    + destruct (g x) as [ys|e]; cbn in Ho; [|done].
      injection Ho as ->. destruct (IH (acc ++ ys) fs) as [Ho Hf].
      destruct (for_each body (acc ++ ys) l fs) as [[r f2] t2].
      cbn in Ho, Hf. subst. cbn.
      destruct (map_result g l); cbn; [|done]. by rewrite <- app_assoc.
    + destruct (g x); cbn in Ho; [done|]. by injection Ho as ->.
Qed.

(** C6.  The resolver returns the concatenation, in campaign order, of the
    deployment ids the server lists for each campaign, each list in the
    order of the answer; nothing is removed, so an id listed under two
    campaigns occurs twice.  It raises exactly when one of the answers
    cannot be read. *)
Theorem find_deployments_concat (campaign_list : list string) (url : string)
  (fs : filesystem) :
  outcome (find_deployments L N campaign_list url fs)
  = rbind (map_result (campaign_matches L N url) campaign_list)
          (λ ls, Ok (concat ls)).
Proof.
  unfold find_deployments.
  apply (for_each_answers_concat _ _ (find_deployments_body_answers url)).
Qed.

(** C4, as the code has it.  When the answer for a campaign carries the
    marker [<h1>500</h1>], the loop body prints the server-error line, adds
    no deployment, raises nothing, and the loop goes on with the next
    campaign from the same list. *)
Theorem find_deployments_skips_server_error (url : string)
  (acc : list pyval) (campaign_name : string) (rest : list string)
  (fs : filesystem) (r_text : string) :
  session_get N (url +:+ "/api/deployment") (campaign_params L campaign_name)
    = Ok r_text →
  contains "<h1>500</h1>" r_text = true →
  let logged :=
    [EvPrint [PyStr "Looking for campaign:"; PyStr campaign_name];
     EvSessionGet (url +:+ "/api/deployment") (campaign_params L campaign_name);
     EvPrint [PyStr server_error_line]] in
  find_deployments_body L N url acc campaign_name fs = (Ok acc, fs, logged)
  ∧ for_each (find_deployments_body L N url) acc (campaign_name :: rest) fs
    = (let x := for_each (find_deployments_body L N url) acc rest fs in
       (outcome x, final_fs x, logged ++ trace x)).
Proof.
  intros Hget Hmark logged.
  assert (Hbody : find_deployments_body L N url acc campaign_name fs
                  = (Ok acc, fs, logged)).
  { unfold find_deployments_body, print, s_get.
    rewrite bind_emit, bind_assoc, bind_emit, Hget, bind_lift_ok, Hmark.
    rewrite bind_emit. reflexivity. }
  split; [exact Hbody|].
  cbn [for_each]. unfold bind. rewrite Hbody.
  destruct (for_each _ acc rest fs) as [[r f2] t2]. reflexivity.
Qed.

End Resolver.

(** ** find_images_in_deployments *)
Section Enumerator.
Context (L : library) (N : network).




(** So does a later page that is not JSON. *)
Lemma media_page_body_parse_error url acc deployment page fs r_text :
  session_get N (url +:+ "/api/media") (media_params L deployment page)
    = Ok r_text →
  json_loads L r_text = None →
  outcome (media_page_body L N url deployment acc page fs)
  = Raise JSONDecodeError.
Proof.
  intros Hget Hjson. unfold media_page_body, s_get, loads.
  rewrite bind_assoc, bind_emit, Hget, bind_lift_ok, Hjson.
  reflexivity.
Qed.


End Enumerator.

(** C1.  The later pages are visited by [range(2, num_pages)], which stops
    before [num_pages].  Deployment 10 of the example catalog reports 150
    media; [num_pages] is 2, no second page is requested, and 100 pairs
    are returned, not 150. *)
Theorem find_images_misses_last_page :
  let x := find_images_in_deployments Demo.lib Demo.net [PyInt 10]
                                      Demo.base_url Demo.empty_fs in
  length (Demo.media_of 10) = 150
  ∧ num_pages_of (PyInt 150) = Ok 2%Z
  ∧ range 2 2 = []
  ∧ count is_session_get (trace x) = 1
  ∧ ∃ image_ids image_deployment,
      outcome x = Ok (image_ids, image_deployment)
      ∧ length image_ids = 100 ∧ length image_deployment = 100.
Proof.
  vm_compute. repeat split. eexists _, _. repeat split.
Qed.

(** ** imap_unordered_bar *)
Section Pool.

(** Whatever the schedule, a pool of at least one worker completes every
    task once. *)
Lemma completion_order_perm {A} (W : nat) (sched : list nat)
  (pending : list A) (fuel : nat) :
  0 < W → fuel = length pending →
  completion_order W sched pending fuel ≡ₚ pending.
Proof.
  intros HW. revert sched pending.
  induction fuel as [|fuel IH]; intros sched pending Hlen; cbn.
  - by destruct pending.
  - assert (Hk : hd 0 sched `mod` (W `min` length pending) < length pending).
    { pose proof (Nat.mod_upper_bound (hd 0 sched) (W `min` length pending)).
      lia. }
    destruct (lookup_lt_is_Some_2 pending _ Hk) as [a Ha]. rewrite Ha.
    etrans; [|symmetry; apply (delete_Permutation pending _ a Ha)].
    constructor. apply IH. rewrite length_delete by eauto. lia.
Qed.

Lemma imap_unordered_perm {A} (W : nat) (sched : list nat) (args : list A) :
  0 < W → imap_unordered W sched args ≡ₚ args.
Proof. intros HW. by apply completion_order_perm. Qed.

(** With tasks that only answer, the pool answers with the results in
    completion order, or with the first exception in that order. *)
Lemma imap_unordered_bar_answers {A B} (sched : list nat) (func : A → M B)
  (f : A → result B) (args : list A) (n_processes : nat) :
  0 < n_processes → (∀ a, answers (func a) (f a)) →
  answers (imap_unordered_bar sched func args n_processes)
          (map_result f (imap_unordered n_processes sched args)).
Proof.
  intros Hn Hfunc fs. unfold imap_unordered_bar.
  destruct n_processes as [|n]; [lia|].
  rewrite bind_emit. cbn [outcome final_fs fst snd].
  set (order := imap_unordered (S n) sched args). clearbody order.
  pose proof (answers_for_each_append func f order [] Hfunc fs) as [Ho Hf].
  unfold bind.
  destruct (for_each _ [] order fs) as [[[res|e] f1] t1]; cbn in Ho, Hf; subst;
    destruct (map_result f order) as [ys|e']; cbn in Ho |- *; by simplify_eq.
Qed.

Lemma map_result_ok {A B} (f : A → result B) (g : A → B) (l : list A) :
  (∀ a, a ∈ l → f a = Ok (g a)) → map_result f l = Ok (map g l).
Proof.
  induction l as [|x l IH]; intros H; cbn; [done|].
  rewrite (H x) by constructor. cbn. rewrite IH; [done|].
  intros a Ha. apply H. by constructor.
Qed.

Lemma map_result_Forall2 {A B} (f : A → result B) (l : list A) (l' : list B) :
  map_result f l = Ok l' → Forall2 (λ a b, f a = Ok b) l l'.
Proof.
  revert l'. induction l as [|x l IH]; intros l' H; cbn in H.
  - injection H as <-. constructor.
  - destruct (f x) as [y|] eqn:Hx; [|done]. cbn in H.
    destruct (map_result f l) as [ys|]; [|done]. cbn in H.
    injection H as <-. constructor; [done|]. by apply IH.
Qed.

(** The contract of the unordered parallel map: for every pool width and
    every completion order, a task function that answers [g a] on every
    input gives exactly the results [g a], each input once. *)
Lemma imap_unordered_bar_permutation {A B} (sched : list nat)
  (func : A → M B) (g : A → B) (args : list A) (n_processes : nat)
  (fs : filesystem) :
  0 < n_processes → (∀ a, answers (func a) (Ok (g a))) →
  ∃ res_list,
    outcome (imap_unordered_bar sched func args n_processes fs) = Ok res_list
    ∧ res_list ≡ₚ map g args.
Proof.
  intros Hn Hfunc.
  destruct (imap_unordered_bar_answers sched func (λ a, Ok (g a)) args
              n_processes Hn Hfunc fs) as [Ho _].
  rewrite (map_result_ok _ g) in Ho by done.
  eexists. split; [exact Ho|].
  by rewrite (imap_unordered_perm n_processes sched args Hn).
Qed.

End Pool.

(** ** get_info_to_database and get_image_pose_and_url *)
Section Aggregator.
Context (L : library) (N : network).

Lemma get_info_answers url p :
  answers (get_info_to_database L N url p) (unit_frame L N url p).
Proof.
  destruct p as [image_id image_deployment].
  unfold get_info_to_database, unit_frame, r_get. intros fs.
  rewrite bind_assoc, bind_emit. cbn [outcome final_fs fst snd].
  destruct (requests_get N _) as [r_text|e]; [|done].
  rewrite bind_lift_ok. done.
Qed.

(** A row as a worker builds it. *)
Definition is_manifest_row (r : list (string * pyval)) : Prop :=
  ∃ ts lat lon dep alt u i d, r = cells ts lat lon dep alt u i d.

(** The frame of a unit of work that succeeded: the manifest columns and
    one row, whose id cells are [int(image_id)] and [int(image_deployment)]. *)
Lemma pose_frame_shape image_id image_deployment r_text df :
  pose_frame L image_id image_deployment r_text = Ok df →
  ∃ ts lat lon dep alt u i d,
    py_int L image_id = Ok i ∧ py_int L image_deployment = Ok d
    ∧ df = {| columns := manifest_columns;
              rows := [cells ts lat lon dep alt u i d] |}.
Proof.
  unfold pose_frame. intros H.
  repeat match type of H with
         | rbind ?r _ = Ok _ =>
             let E := fresh "E" in
             destruct r eqn:E; cbn [rbind] in H; [|discriminate]
         end.
  cbn in H. injection H as <-. eauto 12.
Qed.

Lemma unit_frame_shape url p df :
  unit_frame L N url p = Ok df →
  ∃ ts lat lon dep alt u i d,
    py_int L (fst p) = Ok i ∧ py_int L (snd p) = Ok d
    ∧ df = {| columns := manifest_columns;
              rows := [cells ts lat lon dep alt u i d] |}.
Proof.
  unfold unit_frame. destruct (requests_get N _); [|done]. cbn [rbind].
  apply pose_frame_shape.
Qed.

Lemma reindex_manifest_row r :
  is_manifest_row r → reindex manifest_columns r = r.
Proof. intros (ts & lat & lon & dep & alt & u & i & d & ->). reflexivity. Qed.

Lemma pd_concat_manifest (a b : DataFrame) :
  columns a = manifest_columns → columns b = manifest_columns →
  Forall is_manifest_row (rows a) → Forall is_manifest_row (rows b) →
  pd_concat a b
  = {| columns := manifest_columns; rows := rows a ++ rows b |}.
Proof.
  intros Ha Hb Hra Hrb. unfold pd_concat. rewrite Ha, Hb.
  change (manifest_columns ++ filter _ manifest_columns) with manifest_columns.
  f_equal. rewrite <- (map_id (rows a ++ rows b)) at 2.
  apply map_ext_in. intros r Hr. apply reindex_manifest_row.
  apply in_app_or in Hr. rewrite Forall_forall in Hra, Hrb.
  destruct Hr as [Hr|Hr]; [apply Hra|apply Hrb]; by apply list_elem_of_In.
Qed.

Lemma fold_concat_manifest (results : list DataFrame) (db : DataFrame) :
  columns db = manifest_columns → Forall is_manifest_row (rows db) →
  Forall (λ df, columns df = manifest_columns
                ∧ Forall is_manifest_row (rows df)) results →
  fold_left pd_concat results db
  = {| columns := manifest_columns;
       rows := rows db ++ concat (map rows results) |}.
Proof.
  revert db. induction results as [|df results IH]; intros db Hc Hr Hres.
  - cbn. rewrite app_nil_r. destruct db; cbn in *; by subst.
  - apply Forall_cons_1 in Hres as [[Hdc Hdr] Hres]. cbn [fold_left].
    rewrite (pd_concat_manifest db df) by done.
    rewrite IH; cbn; [|done|by apply Forall_app|done].
    by rewrite <- app_assoc.
Qed.

Definition in_int64 (z : Z) : bool :=
  ((int64_min <=? z) && (z <=? int64_max))%Z.

(** The id cells of a manifest row are ints already: [astype(int)] leaves
    the row as it is, or overflows. *)
Lemma astype_manifest_row label r :
  label = "image_id"%string ∨ label = "deployment_id"%string →
  is_manifest_row r →
  ∃ z, assoc label r = Some (PyInt z)
       ∧ (let? v := astype_int_cell L (default NaN (assoc label r)) in
          Ok (set_cell label v r))
         = if in_int64 z then Ok r else Raise OverflowError.
Proof.
  intros Hl (ts & lat & lon & dep & alt & u & i & d & ->).
  destruct Hl as [-> | ->]; [exists i|exists d]; (split; [reflexivity|]);
    cbn; unfold astype_int_cell, in_int64; cbn;
    by destruct (_ && _).
Qed.

Lemma astype_int_manifest label rs db :
  label = "image_id"%string ∨ label = "deployment_id"%string →
  Forall is_manifest_row rs →
  astype_int L label {| columns := manifest_columns; rows := rs |} = Ok db →
  db = {| columns := manifest_columns; rows := rs |}.
Proof.
  intros Hl Hrs. unfold astype_int. cbn [rows columns].
  destruct (map_result _ rs) as [rs'|] eqn:Hmap; [|done].
  cbn. intros [= <-]. f_equal.
  apply map_result_Forall2 in Hmap.
  induction Hmap as [|r r' rs rs' Hr _ IH]; [done|].
  apply Forall_cons_1 in Hrs as [Hrow Hrs].
  destruct (astype_manifest_row label r Hl Hrow) as (z & _ & Hz).
  rewrite Hz in Hr. destruct (in_int64 z); [|done].
  injection Hr as <-. f_equal. by apply IH.
Qed.

Lemma astype_int_manifest_ok label rs :
  label = "image_id"%string ∨ label = "deployment_id"%string →
  Forall is_manifest_row rs →
  Forall (λ r, ∃ z, assoc label r = Some (PyInt z) ∧ in_int64 z = true) rs →
  astype_int L label {| columns := manifest_columns; rows := rs |}
  = Ok {| columns := manifest_columns; rows := rs |}.
Proof.
  intros Hl Hrs Hin. unfold astype_int. cbn [rows columns].
  rewrite (map_result_ok _ id); [by rewrite map_id|].
  intros r Hr. rewrite Forall_forall in Hrs, Hin.
  destruct (astype_manifest_row label r Hl (Hrs r Hr)) as (z & Hz & ->).
  destruct (Hin r Hr) as (z' & Hz' & Hrange).
  rewrite Hz in Hz'. injection Hz' as <-. by rewrite Hrange.
Qed.

(** The aggregator, as a function of what the units of work yield in
    completion order. *)
Lemma get_image_pose_and_url_outcome sched url image_ids image_deployment fs :
  outcome (get_image_pose_and_url L N sched url image_ids image_deployment fs)
  = (let? results :=
       map_result (unit_frame L N url)
         (imap_unordered default_processes sched
            (zip image_ids image_deployment)) in
     let? database :=
       astype_int L "deployment_id"
         (fold_left pd_concat results
            {| columns := manifest_columns; rows := [] |}) in
     astype_int L "image_id" database).
Proof.
  unfold get_image_pose_and_url.
  change (pd_DataFrame (map (λ c, (c, [])) manifest_columns))
    with (Ok {| columns := manifest_columns; rows := [] |}).
  rewrite bind_lift_ok, outcome_bind.
  destruct (imap_unordered_bar_answers sched (get_info_to_database L N url)
              (unit_frame L N url) (zip image_ids image_deployment)
              default_processes ltac:(unfold default_processes; lia)
              (get_info_answers url) fs) as [-> ->].
  destruct (map_result _ _) as [results|e]; [|done]. cbn [rbind].
  set (db := fold_left _ _ _). clearbody db.
  destruct (astype_int L "deployment_id" db) as [db1|e]; [|done].
  rewrite bind_lift_ok. cbn [rbind].
  destruct (astype_int L "image_id" db1) as [db2|e]; done.
Qed.

Definition id_in_range (label : string) (r : list (string * pyval)) : Prop :=
  ∃ z, assoc label r = Some (PyInt z) ∧ in_int64 z = true.

(** The identity an input pair is expected to have in the manifest. *)
Definition expected_key (p : pyval * pyval) : option pyval * option pyval :=
  match pair_key L p with
  | Ok k => (Some (fst k), Some (snd k))
  | Raise _ => (None, None)
  end.

Lemma unit_row url p df k :
  unit_frame L N url p = Ok df → pair_key L p = Ok k →
  ∃ r, df = {| columns := manifest_columns; rows := [r] |}
       ∧ is_manifest_row r
       ∧ row_key r = (Some (fst k), Some (snd k))
       ∧ id_in_range "image_id" r ∧ id_in_range "deployment_id" r.
Proof.
  intros Hdf Hk.
  destruct (unit_frame_shape url p df Hdf)
    as (ts & lat & lon & dep & alt & u & i & d & Hi & Hd & ->).
  unfold pair_key, astype_int_cell in Hk. rewrite Hi, Hd in Hk. cbn in Hk.
  destruct (_ && _) eqn:Ri in Hk; [|done]. cbn in Hk.
  destruct (_ && _) eqn:Rd in Hk; [|done]. cbn in Hk.
  injection Hk as <-. eexists. split; [reflexivity|].
  split; [unfold is_manifest_row; eauto 10|].
  split; [reflexivity|]. split; eexists; (split; [reflexivity|done]).
Qed.

Lemma units_rows url (order : list (pyval * pyval)) :
  Forall (λ p, is_ok (unit_frame L N url p) = true
               ∧ is_ok (pair_key L p) = true) order →
  ∃ results,
    map_result (unit_frame L N url) order = Ok results
    ∧ Forall (λ df, columns df = manifest_columns
                    ∧ Forall is_manifest_row (rows df)) results
    ∧ Forall (id_in_range "image_id") (concat (map rows results))
    ∧ Forall (id_in_range "deployment_id") (concat (map rows results))
    ∧ map row_key (concat (map rows results)) = map expected_key order
    ∧ length (concat (map rows results)) = length order.
Proof.
  induction 1 as [|p order [Hu Hk] _ (results & Hmap & Hshape & Hi & Hd & Hkeys & Hlen)].
  - exists []. repeat split; constructor.
  - destruct (unit_frame L N url p) as [df|] eqn:Hdf; [|done].
    destruct (pair_key L p) as [k|] eqn:Hpk; [|done].
    destruct (unit_row url p df k Hdf Hpk) as (r & -> & Hrow & Hkey & Hri & Hrd).
    exists ({| columns := manifest_columns; rows := [r] |} :: results).
    cbn [map_result map rows concat app length]. rewrite Hdf, Hmap. cbn [rbind].
    split; [done|]. split; [constructor; [by split; [|constructor]|done]|].
    split; [by constructor|]. split; [by constructor|].
    split; [|by rewrite Hlen].
    unfold expected_key at 1. rewrite Hpk, Hkey. by f_equal.
Qed.

Lemma map_result_is_ok {A B} (f : A → result B) (l : list A) (l' : list B) :
  map_result f l = Ok l' → Forall (λ a, is_ok (f a) = true) l.
Proof.
  intros H. apply map_result_Forall2 in H.
  induction H as [|a b l l' Hab _ IH]; constructor; [by rewrite Hab|done].
Qed.

(** C2.  When every unit of work succeeds and the ids fit 64 bits, the
    aggregator returns, for every completion order of the pool, a manifest
    with the manifest columns and exactly one row per input pair; the
    rows carry the ids of the input pairs, each pair once. *)
Theorem manifest_one_row_per_pair (sched : list nat) (url : string)
  (image_ids image_deployment : list pyval) (fs : filesystem)
  (keys : list (pyval * pyval)) :
  (∀ p, p ∈ zip image_ids image_deployment →
        is_ok (outcome (get_info_to_database L N url p fs)) = true) →
  map_result (pair_key L) (zip image_ids image_deployment) = Ok keys →
  ∃ database,
    outcome (get_image_pose_and_url L N sched url image_ids image_deployment fs)
      = Ok database
    ∧ columns database = manifest_columns
    ∧ length (rows database) = length (zip image_ids image_deployment)
    ∧ map row_key (rows database)
      ≡ₚ map (λ k, (Some (fst k), Some (snd k))) keys.
Proof.
  intros Hunits Hkeys. set (pairs := zip image_ids image_deployment) in *.
  set (order := imap_unordered default_processes sched pairs).
  assert (Hperm : order ≡ₚ pairs).
  { apply imap_unordered_perm. unfold default_processes. lia. }
  assert (Hall : Forall (λ p, is_ok (unit_frame L N url p) = true
                              ∧ is_ok (pair_key L p) = true) order).
  { rewrite Hperm. apply Forall_forall. intros p Hp. split.
    - specialize (Hunits p Hp).
      by rewrite (proj1 (get_info_answers url p fs)) in Hunits.
    - pose proof (map_result_is_ok _ _ _ Hkeys) as Hok.
      rewrite Forall_forall in Hok. by apply Hok. }
  destruct (units_rows url order Hall)
    as (results & Hmap & Hshape & Hi & Hd & Hrk & Hlen).
  rewrite get_image_pose_and_url_outcome. fold pairs. fold order.
  rewrite Hmap. cbn [rbind].
  rewrite fold_concat_manifest by (done || constructor). cbn [rows app].
  assert (Hrows : Forall is_manifest_row (concat (map rows results))).
  { apply Forall_concat, Forall_fmap. eapply Forall_impl; [exact Hshape|].
    by intros df [_ H]. }
  rewrite (astype_int_manifest_ok "deployment_id") by (done || by right).
  cbn [rbind].
  rewrite (astype_int_manifest_ok "image_id") by (done || by left).
  eexists. split; [reflexivity|]. cbn [columns rows].
  split; [done|]. split; [by rewrite Hlen, Hperm|].
  rewrite Hrk, Hperm. apply map_result_Forall2 in Hkeys.
  clear -Hkeys. induction Hkeys as [|p k l l' Hpk _ IH]; [done|].
  cbn. unfold expected_key at 1. rewrite Hpk. by constructor.
Qed.

Lemma get_image_pose_and_url_rows sched url image_ids image_deployment fs db :
  outcome (get_image_pose_and_url L N sched url image_ids image_deployment fs)
    = Ok db →
  columns db = manifest_columns ∧ Forall is_manifest_row (rows db).
Proof.
  rewrite get_image_pose_and_url_outcome.
  destruct (map_result _ _) as [results|] eqn:Hmap; [|done]. cbn [rbind].
  assert (Hshape : Forall (λ df, columns df = manifest_columns
                                 ∧ Forall is_manifest_row (rows df)) results).
  { apply map_result_Forall2 in Hmap. clear -Hmap.
    induction Hmap as [|p df l l' Hp _ IH]; constructor; [|done].
    destruct (unit_frame_shape url p df Hp)
      as (ts & lat & lon & dep & alt & u & i & d & _ & _ & ->).
    split; [done|]. constructor; [|done]. unfold is_manifest_row. eauto 10. }
  rewrite fold_concat_manifest by (done || constructor). cbn [rows app].
  assert (Hrows : Forall is_manifest_row (concat (map rows results))).
  { apply Forall_concat, Forall_fmap. eapply Forall_impl; [exact Hshape|].
    by intros df [_ H]. }
  destruct (astype_int L "deployment_id" _) as [db1|] eqn:H1; [|done].
  cbn [rbind]. intros H2.
  apply astype_int_manifest in H1; [|by right|done]. subst db1.
  apply astype_int_manifest in H2; [|by left|done]. by subst db.
Qed.

(** C3.  In every row of a manifest the aggregator returns, the cells
    [image_id] and [deployment_id] hold ints and the cells [lat], [lon],
    [dep], [alt] hold floats, whatever JSON type the server used. *)
Theorem manifest_cell_types (sched : list nat) (url : string)
  (image_ids image_deployment : list pyval) (fs : filesystem)
  (database : DataFrame) (r : list (string * pyval)) :
  outcome (get_image_pose_and_url L N sched url image_ids image_deployment fs)
    = Ok database →
  r ∈ rows database →
  has_int "image_id" r = true ∧ has_int "deployment_id" r = true
  ∧ has_float "lat" r = true ∧ has_float "lon" r = true
  ∧ has_float "dep" r = true ∧ has_float "alt" r = true.
Proof.
  intros Hdb Hr.
  destruct (get_image_pose_and_url_rows _ _ _ _ _ _ Hdb) as [_ Hrows].
  rewrite Forall_forall in Hrows.
  destruct (Hrows r Hr) as (ts & lat & lon & dep & alt & u & i & d & ->).
  repeat split.
Qed.

End Aggregator.

(** ** Paths built from ids *)
Section Paths.

Fixpoint no_slash (s : string) : bool :=
  match s with
  | EmptyString => true
  | String c s' => negb (Ascii.eqb c "/") && no_slash s'
  end.

Lemma split_slash_plain s : no_slash s = true → split_slash s = [s].
Proof.
  induction s as [|c s IH]; [done|]. cbn. intros [Hc Hs]%andb_prop.
  apply negb_true_iff in Hc. rewrite Hc, IH; done.
Qed.

Lemma prefix_slash_plain s : no_slash s = true → String.prefix "/" s = false.
Proof.
  destruct s as [|c s]; [done|]. cbn [no_slash String.prefix].
  intros [Hc _]%andb_prop. apply negb_true_iff, Ascii.eqb_neq in Hc.
  by destruct (ascii_dec "/" c) as [<-|Hne].
Qed.

(** A string without a slash that is neither empty nor a dot is a path
    of one part. *)
Lemma Path_plain s : no_slash s = true → is_part s = true → Path s = [s].
Proof.
  intros Hs Hp. unfold Path.
  rewrite prefix_slash_plain, split_slash_plain by done. cbn.
  rewrite decide_True; [done|]. by rewrite Hp.
Qed.

Lemma path_div_plain p s :
  no_slash s = true → is_part s = true → path_div p s = p ++ [s].
Proof.
  intros Hs Hp. unfold path_div. rewrite Path_plain by done. cbn.
  destruct (String.eqb s "/") eqn:E; [|done].
  apply String.eqb_eq in E. by subst.
Qed.

Lemma no_slash_app s t :
  no_slash s = true → no_slash t = true → no_slash (s +:+ t) = true.
Proof.
  intros Hs Ht. induction s as [|c s IH]; [done|].
  change (String c s +:+ t) with (String c (s +:+ t)). cbn [no_slash] in *.
  apply andb_prop in Hs as [Hc Hs]. by rewrite Hc, IH.
Qed.

Lemma no_slash_uint d : no_slash (NilEmpty.string_of_uint d) = true.
Proof. induction d; cbn; done. Qed.

Lemma no_slash_nz_uint d : no_slash (NilZero.string_of_uint d) = true.
Proof.
  unfold NilZero.string_of_uint.
  destruct d; [reflexivity|apply no_slash_uint..].
Qed.

Lemma no_slash_str_of_Z z : no_slash (str_of_Z z) = true.
Proof.
  unfold str_of_Z, NilZero.string_of_int.
  destruct (Z.to_int z) as [d|d]; [apply no_slash_nz_uint|].
  cbn [no_slash]. by rewrite no_slash_nz_uint.
Qed.

Lemma is_part_str_of_Z z : is_part (str_of_Z z) = true.
Proof.
  unfold str_of_Z, NilZero.string_of_int, NilZero.string_of_uint.
  destruct (Z.to_int z) as [d|d]; [destruct d|]; reflexivity.
Qed.

Lemma is_part_png s : is_part (s +:+ ".png") = true.
Proof.
  unfold is_part. destruct s as [|c s]; [reflexivity|].
  change (String c s +:+ ".png") with (String c (s +:+ ".png")).
  cbn [String.eqb negb andb].
  destruct (Ascii.eqb c "."); [|reflexivity]. by destruct s.
Qed.

(** [Path(out) / str(d)] and [... / (str(i) + ".png")] add one part each. *)
Lemma deployment_path_parts output_folder d :
  path_div (Path output_folder) (str_of_Z d)
  = Path output_folder ++ [str_of_Z d].
Proof. apply path_div_plain; [apply no_slash_str_of_Z|apply is_part_str_of_Z]. Qed.

Lemma filename_parts (p : path) i :
  path_div p (str_of_Z i +:+ ".png") = p ++ [str_of_Z i +:+ ".png"].
Proof.
  apply path_div_plain; [|apply is_part_png].
  apply no_slash_app; [apply no_slash_str_of_Z|done].
Qed.

End Paths.

(** ** The file system calls *)
Section FileSystem.

Lemma parent_take (p : path) : parent p = take (length p - 1) p.
Proof. unfold parent. rewrite removelast_firstn_len. f_equal. lia. Qed.

Lemma parent_app (p : path) c : parent (p ++ [c]) = p.
Proof. unfold parent. by rewrite removelast_last. Qed.

Lemma is_dir_add_dir fs p : is_dir (add_dir fs p) p = true.
Proof.
  destruct p as [|c p]; [done|]. cbn. apply bool_decide_eq_true. set_solver.
Qed.

(** [mkdir(parents=True, exist_ok=True)] succeeds whenever no file sits at
    the path or above it: it leaves the files alone, makes the path a
    directory, adds only prefixes of the path, and changes nothing when
    the path is a directory already. *)
Lemma mkdir_parents_spec (fuel : nat) : ∀ (p : path) (fs : filesystem),
  length p ≤ fuel →
  (∀ n, is_file fs (take n p) = false) →
  ∃ fs', mkdir_parents fuel fs p = Ok fs'
         ∧ files fs' = files fs
         ∧ is_dir fs' p = true
         ∧ dirs fs ⊆ dirs fs'
         ∧ (∀ q, q ∈ dirs fs' → q ∈ dirs fs ∨ ∃ n, q = take n p)
         ∧ (is_dir fs p = true → fs' = fs).
Proof.
  induction fuel as [|fuel IH]; intros p fs Hlen Hfiles.
  - destruct p; [|cbn in Hlen; lia]. exists fs. cbn. set_solver.
  - assert (Hp : is_file fs p = false).
    { specialize (Hfiles (length p)). by rewrite firstn_all in Hfiles. }
    assert (Hpar : is_file fs (parent p) = false).
    { rewrite parent_take. apply Hfiles. }
    cbn [mkdir_parents]. unfold os_mkdir, path_exists. rewrite Hp, Hpar.
    rewrite orb_false_r.
    destruct (is_dir fs p) eqn:Hd.
    { exists fs. set_solver. }
    destruct (is_dir fs (parent p)) eqn:Hdp.
    { exists (add_dir fs p). rewrite is_dir_add_dir.
      repeat split; [set_solver| |done].
      intros q Hq. cbn in Hq. apply elem_of_union in Hq as [Hq|Hq]; [|by left].
      right. exists (length p). rewrite firstn_all. set_solver. }
    assert (Hne : p ≠ []) by (by intros ->).
    assert (Hlp : length (parent p) ≤ fuel).
    { rewrite parent_take, length_take. lia. }
    destruct (IH (parent p) fs Hlp) as (fs1 & -> & Hf1 & Hd1 & Hsub & Hnew & _).
    { intros n. rewrite parent_take, take_take. apply Hfiles. }
    cbn [rbind]. unfold os_mkdir, path_exists, is_file. rewrite Hf1.
    fold (is_file fs p). rewrite Hp, Hd1, orb_false_r.
    assert (Hd1p : is_dir fs1 p = false).
    { destruct p as [|c p]; [done|]. cbn in Hd |- *.
      apply bool_decide_eq_false. apply bool_decide_eq_false in Hd.
      intros [Hq|[n Hq]]%Hnew; [done|].
      apply (f_equal length) in Hq. rewrite parent_take in Hq.
      rewrite !length_take in Hq. cbn in Hq. lia. }
    rewrite Hd1p. exists (add_dir fs1 p). rewrite is_dir_add_dir.
    repeat split; [done|set_solver| |done].
    intros q Hq. cbn in Hq. apply elem_of_union in Hq as [Hq|Hq].
    + right. exists (length p). rewrite firstn_all. set_solver.
    + destruct (Hnew q Hq) as [?|[n ->]]; [by left|right].
      rewrite parent_take, take_take. eauto.
Qed.

Lemma mkdir_spec (p : path) (fs : filesystem) :
  (∀ n, is_file fs (take n p) = false) →
  ∃ fs', mkdir fs p = Ok fs'
         ∧ files fs' = files fs
         ∧ is_dir fs' p = true
         ∧ dirs fs ⊆ dirs fs'
         ∧ (∀ q, q ∈ dirs fs' → q ∈ dirs fs ∨ ∃ n, q = take n p).
Proof.
  intros H. destruct (mkdir_parents_spec (length p) p fs (le_n _) H)
    as (fs' & ? & ? & ? & ? & ? & _). eauto 10.
Qed.

(** [exist_ok]: on a directory that exists the call is a no-op. *)
Lemma mkdir_exist_ok (p : path) (fs : filesystem) :
  is_dir fs p = true → mkdir fs p = Ok fs.
Proof.
  intros Hd. unfold mkdir. destruct (length p); cbn [mkdir_parents];
    unfold os_mkdir, path_exists; by rewrite Hd.
Qed.

End FileSystem.

(** ** download_image_url *)

(** [<root>/<deployment_id>] and [<root>/<deployment_id>/<image_id>.png] *)
Definition deployment_dir (output_folder : string) (d : Z) : path :=
  Path output_folder ++ [str_of_Z d].

Definition image_file (output_folder : string) (d i : Z) : path :=
  Path output_folder ++ [str_of_Z d; str_of_Z i +:+ ".png"].

Fixpoint all_space (s : string) : bool :=
  match s with
  | EmptyString => true
  | String c s' => is_space c && all_space s'
  end.

(** [s] does not end in white space: a clean URL. *)
Fixpoint no_trailing_space (s : string) : bool :=
  match s with
  | EmptyString => true
  | String c s' =>
      match s' with
      | EmptyString => negb (is_space c)
      | String _ _ => no_trailing_space s'
      end
  end.

Section Downloader.
Context (L : library) (N : network).

Lemma bind_get_fs {B} (k : filesystem → M B) fs : bind get_fs k fs = k fs fs.
Proof. unfold bind, get_fs. by destruct (k fs fs) as [[r f] t]. Qed.

Lemma bind_fs_call_ok {B} op (k : unit → M B) fs fs' :
  op fs = Ok fs' → bind (fs_call op) k fs = k tt fs'.
Proof.
  intros H. unfold bind, fs_call. rewrite H.
  by destruct (k tt fs') as [[r f] t].
Qed.

Lemma bind_fs_call_raise {B} op (k : unit → M B) fs e :
  op fs = Raise e → bind (fs_call op) k fs = (Raise e, fs, []).
Proof. intros H. unfold bind, fs_call. by rewrite H. Qed.

Lemma rstrip_all_space ws : all_space ws = true → rstrip ws = EmptyString.
Proof.
  induction ws as [|c ws IH]; [done|]. cbn. intros [Hc Hws]%andb_prop.
  by rewrite IH, Hc.
Qed.

(** Trailing white space does not survive [rstrip]. *)
Lemma rstrip_app_space u ws :
  all_space ws = true → rstrip (u +:+ ws) = rstrip u.
Proof.
  intros Hws. induction u as [|c u IH]; [by apply rstrip_all_space|].
  change (String c u +:+ ws) with (String c (u +:+ ws)). cbn [rstrip].
  by rewrite IH.
Qed.

Lemma rstrip_cons c s :
  rstrip (String c s)
  = match rstrip s with
    | EmptyString => if is_space c then EmptyString else String c EmptyString
    | r => String c r
    end.
Proof. reflexivity. Qed.

Lemma rstrip_idempotent u : rstrip (rstrip u) = rstrip u.
Proof.
  induction u as [|c u IH]; [done|]. rewrite rstrip_cons.
  destruct (rstrip u) as [|c' r] eqn:E.
  - destruct (is_space c) eqn:Hc; [done|]. cbn. by rewrite Hc.
  - rewrite rstrip_cons, IH. done.
Qed.

(** [rstrip] keeps a string that does not end in white space. *)
Lemma rstrip_clean u : no_trailing_space u = true → rstrip u = u.
Proof.
  induction u as [|c u IH]; [done|]. destruct u as [|c' u'].
  - cbn. by destruct (is_space c).
  - intros H. rewrite rstrip_cons, IH by exact H. done.
Qed.

(** What [rstrip] returns does not end in white space. *)
Lemma rstrip_no_trailing u : no_trailing_space (rstrip u) = true.
Proof.
  induction u as [|c u IH]; [done|]. rewrite rstrip_cons.
  destruct (rstrip u) as [|c' r] eqn:E.
  - destruct (is_space c) eqn:Hc; [done|]. cbn. by rewrite Hc.
  - exact IH.
Qed.

(** What [rstrip] removes is white space at the end. *)
Lemma rstrip_decompose u :
  ∃ tail, u = rstrip u +:+ tail ∧ all_space tail = true.
Proof.
  induction u as [|c u (tail & Hu & Htail)]; [by exists EmptyString|].
  rewrite rstrip_cons. destruct (rstrip u) as [|c' r] eqn:E.
  - change (u = tail) in Hu. subst tail. destruct (is_space c) eqn:Hc.
    + exists (String c u). split; [done|]. cbn. by rewrite Hc, Htail.
    + by exists u.
  - exists tail. split; [|done].
    change (String c (String c' r) +:+ tail)
      with (String c (String c' r +:+ tail)). by rewrite <- Hu.
Qed.

(** [rstrip] on a clean string followed by white space gives the clean
    string back. *)
Lemma rstrip_spec u ws :
  no_trailing_space u = true → all_space ws = true → rstrip (u +:+ ws) = u.
Proof. intros Hu Hws. by rewrite rstrip_app_space, rstrip_clean. Qed.

Lemma image_file_div output_folder d i :
  path_div (path_div (Path output_folder) (str_of_Z d)) (str_of_Z i +:+ ".png")
  = image_file output_folder d i.
Proof.
  rewrite deployment_path_parts, filename_parts. unfold image_file.
  by rewrite <- app_assoc.
Qed.

Lemma image_file_parent output_folder d i :
  parent (image_file output_folder d i) = deployment_dir output_folder d.
Proof.
  unfold image_file, deployment_dir.
  change [str_of_Z d; str_of_Z i +:+ ".png"]
    with ([str_of_Z d] ++ [str_of_Z i +:+ ".png"]).
  by rewrite app_assoc, parent_app.
Qed.

Lemma is_dir_same_dirs fs fs' p :
  dirs fs' = dirs fs → is_dir fs' p = is_dir fs p.
Proof. unfold is_dir. by intros ->. Qed.

Lemma is_dir_image_file_new fs fs' output_folder d i :
  is_dir fs (image_file output_folder d i) = false →
  (∀ q, q ∈ dirs fs' →
        q ∈ dirs fs ∨ ∃ n, q = take n (deployment_dir output_folder d)) →
  is_dir fs' (image_file output_folder d i) = false.
Proof.
  intros Hd Hnew. unfold is_dir in *.
  destruct (image_file output_folder d i) as [|c q] eqn:E; [done|].
  apply bool_decide_eq_false. apply bool_decide_eq_false in Hd.
  intros [Hq|[n Hq]]%Hnew; [done|].
  rewrite <- E in Hq. apply (f_equal length) in Hq.
  rewrite length_take in Hq. unfold image_file, deployment_dir in Hq.
  rewrite !length_app in Hq. cbn in Hq. lia.
Qed.

(** C7.  Given a str URL that parses and is served, ids that convert, no
    file at or above the deployment directory and no directory in the
    place of the image file, the download returns the path
    [<root>/<deployment_id>/<image_id>.png], whose name owes nothing to
    the URL, stores the fetched bytes there and touches no other file; the
    deployment directory exists afterwards, and when it existed before no
    directory is made and nothing fails. *)
Theorem download_image_url_writes_png (u : string)
  (deployment_id image_id : pyval) (output_folder : string)
  (fs : filesystem) (d i : Z) (img_data : string) :
  urlparse_ok L (rstrip u) = true →
  py_int L deployment_id = Ok d →
  py_int L image_id = Ok i →
  requests_get N (rstrip u) = Ok img_data →
  (∀ n, is_file fs (take n (deployment_dir output_folder d)) = false) →
  is_dir fs (image_file output_folder d i) = false →
  let x := download_image_url L N
             (PyStr u, deployment_id, image_id, output_folder) fs in
  outcome x = Ok (image_file output_folder d i)
  ∧ files (final_fs x)
    = <[image_file output_folder d i := img_data]> (files fs)
  ∧ is_dir (final_fs x) (deployment_dir output_folder d) = true
  ∧ dirs fs ⊆ dirs (final_fs x)
  ∧ (is_dir fs (deployment_dir output_folder d) = true →
     dirs (final_fs x) = dirs fs
     ∧ trace x = [EvRequestsGet (rstrip u);
                  EvWriteFile (image_file output_folder d i)]).
Proof.
  intros Hurl Hd Hi Hget Hfiles Hfile x. subst x.
  unfold download_image_url. cbn [py_rstrip].
  rewrite bind_lift_ok, Hurl, bind_lift_ok, Hd, bind_lift_ok, Hi, bind_lift_ok.
  rewrite bind_get_fs, image_file_div, deployment_path_parts.
  fold (deployment_dir output_folder d).
  set (dp := deployment_dir output_folder d) in *.
  set (file := image_file output_folder d i) in *.
  assert (Hdpfile : is_file fs dp = false).
  { specialize (Hfiles (length dp)). by rewrite firstn_all in Hfiles. }
  assert (Hpar : parent file = dp) by apply image_file_parent.
  unfold path_exists. rewrite Hdpfile, orb_false_r.
  destruct (is_dir fs dp) eqn:Hdp.
  - rewrite bind_ret, bind_lift_ok. unfold r_get.
    rewrite bind_assoc, bind_emit, Hget, bind_lift_ok, bind_emit.
    rewrite (bind_fs_call_ok _ _ fs
               {| dirs := dirs fs; files := <[file := img_data]> (files fs) |}).
    2:{ unfold write_file. by rewrite Hfile, Hpar, Hdp. }
    cbn [outcome final_fs trace fst snd ret files dirs].
    rewrite (is_dir_same_dirs fs) by done. by rewrite Hdp.
  - destruct (mkdir_spec dp fs Hfiles) as (fs1 & Hmk & Hf1 & Hd1 & Hsub & Hnew).
    rewrite bind_assoc, bind_emit.
    rewrite (bind_fs_call_ok _ _ fs fs1) by done.
    rewrite bind_lift_ok. unfold r_get.
    rewrite bind_assoc, bind_emit, Hget, bind_lift_ok, bind_emit.
    rewrite (bind_fs_call_ok _ _ fs1
               {| dirs := dirs fs1; files := <[file := img_data]> (files fs1) |}).
    2:{ assert (Hnf : is_dir fs1 file = false)
          by (by apply (is_dir_image_file_new fs)).
        unfold write_file. by rewrite Hnf, Hpar, Hd1. }
    cbn [outcome final_fs trace fst snd ret files dirs].
    rewrite (is_dir_same_dirs fs1) by done. by rewrite Hf1, Hd1.
Qed.

(** The only request of a download is for the stripped URL. *)
Lemma download_image_url_fetches v deployment_id image_id output_folder fs url' :
  EvRequestsGet url'
    ∈ trace (download_image_url L N
               (v, deployment_id, image_id, output_folder) fs) →
  ∃ s, v = PyStr s ∧ url' = rstrip s.
Proof.
  unfold download_image_url, r_get.
  destruct v as [| | | |s| |]; cbn [py_rstrip];
    try (rewrite bind_lift_raise; cbn; by intros ?%elem_of_nil).
  rewrite bind_lift_ok. intros H. exists s. split; [done|].
  revert H. unfold bind, lift, emit, get_fs, fs_call, ret, trace.
  repeat case_match; simplify_eq; cbn;
    rewrite ?app_nil_r; cbn;
    rewrite ?elem_of_cons, ?elem_of_nil; intros H;
    repeat (destruct H as [H|H]); by simplify_eq.
Qed.

(** A download that returns, returns the image file of the converted ids. *)
Lemma download_image_url_returns v deployment_id image_id output_folder fs f :
  outcome (download_image_url L N
             (v, deployment_id, image_id, output_folder) fs) = Ok f →
  ∃ d i, py_int L deployment_id = Ok d ∧ py_int L image_id = Ok i
         ∧ f = image_file output_folder d i.
Proof.
  unfold download_image_url.
  destruct (py_rstrip v) as [s|]; [|done]. rewrite bind_lift_ok.
  destruct (urlparse_ok L s); [|done]. rewrite bind_lift_ok.
  destruct (py_int L deployment_id) as [d|]; [|done]. rewrite bind_lift_ok.
  destruct (py_int L image_id) as [i|]; [|done]. rewrite bind_lift_ok.
  rewrite image_file_div. intros H. exists d, i. split; [done|]. split; [done|].
  revert H. unfold bind, lift, emit, get_fs, fs_call, ret, r_get, outcome.
  repeat case_match; simplify_eq; cbn; intros; by simplify_eq.
Qed.

(** A download that returns has made one request, for the stripped URL. *)
Lemma download_image_url_requests s deployment_id image_id output_folder fs f :
  outcome (download_image_url L N
             (PyStr s, deployment_id, image_id, output_folder) fs) = Ok f →
  List.filter is_requests_get
    (trace (download_image_url L N
              (PyStr s, deployment_id, image_id, output_folder) fs))
  = [EvRequestsGet (rstrip s)].
Proof.
  unfold download_image_url. cbn [py_rstrip]. rewrite bind_lift_ok.
  destruct (urlparse_ok L (rstrip s)); [|done]. rewrite bind_lift_ok.
  destruct (py_int L deployment_id) as [d|]; [|done]. rewrite bind_lift_ok.
  destruct (py_int L image_id) as [i|]; [|done]. rewrite bind_lift_ok.
  unfold r_get, bind, lift, emit, get_fs, fs_call, ret, outcome, trace.
  repeat case_match; simplify_eq; cbn; intros; by simplify_eq.
Qed.

(** The parser sees the stripped URL: when it rejects it, the download
    raises [ValueError] before any operation. *)
Lemma download_image_url_parses_stripped s deployment_id image_id
  output_folder fs :
  urlparse_ok L (rstrip s) = false →
  download_image_url L N (PyStr s, deployment_id, image_id, output_folder) fs
  = (Raise ValueError, fs, []).
Proof.
  intros H. unfold download_image_url. cbn [py_rstrip].
  by rewrite bind_lift_ok, H, bind_lift_raise.
Qed.

(** C10.  White space at the end of the URL changes nothing: the run with
    [u] followed by white space is the run with [u], the one request it
    makes is for [u.rstrip()], and the file it returns is the same for any
    URL, being named by the ids alone.  [u.rstrip()] is [u] without the
    white space at its end, so for a clean [u] (one that does not end in
    white space) the stripped URL of [u] followed by white space is [u]
    itself and every request is for [u]; a run that returns has made
    exactly one request, for the stripped URL; and a stripped URL that the
    parser rejects raises before any request. *)
Theorem download_image_url_strips_url (u ws : string)
  (deployment_id image_id : pyval) (output_folder : string)
  (fs : filesystem) :
  all_space ws = true →
  download_image_url L N
    (PyStr (u +:+ ws), deployment_id, image_id, output_folder) fs
  = download_image_url L N (PyStr u, deployment_id, image_id, output_folder) fs
  ∧ (∀ url', EvRequestsGet url'
               ∈ trace (download_image_url L N
                          (PyStr (u +:+ ws), deployment_id, image_id,
                           output_folder) fs) →
             url' = rstrip u)
  ∧ (∀ other_url fs' f f',
       outcome (download_image_url L N
                  (PyStr (u +:+ ws), deployment_id, image_id, output_folder)
                  fs) = Ok f →
       outcome (download_image_url L N
                  (other_url, deployment_id, image_id, output_folder) fs')
         = Ok f' →
       f = f')
  ∧ (no_trailing_space (rstrip u) = true
     ∧ ∃ tail, u = rstrip u +:+ tail ∧ all_space tail = true)
  ∧ (no_trailing_space u = true →
     rstrip (u +:+ ws) = u
     ∧ ∀ url', EvRequestsGet url'
                 ∈ trace (download_image_url L N
                            (PyStr (u +:+ ws), deployment_id, image_id,
                             output_folder) fs) →
               url' = u)
  ∧ (∀ f,
       outcome (download_image_url L N
                  (PyStr (u +:+ ws), deployment_id, image_id, output_folder)
                  fs) = Ok f →
       List.filter is_requests_get
         (trace (download_image_url L N
                   (PyStr (u +:+ ws), deployment_id, image_id, output_folder)
                   fs))
       = [EvRequestsGet (rstrip u)])
  ∧ (urlparse_ok L (rstrip u) = false →
     download_image_url L N
       (PyStr (u +:+ ws), deployment_id, image_id, output_folder) fs
     = (Raise ValueError, fs, [])).
Proof.
  intros Hws.
  assert (∀ url', EvRequestsGet url'
               ∈ trace (download_image_url L N
                          (PyStr (u +:+ ws), deployment_id, image_id,
                           output_folder) fs) →
             url' = rstrip u) as Hreq.
  { intros url' H. apply download_image_url_fetches in H as (s & [= <-] & ->).
    by apply rstrip_app_space. }
  split_and!.
  - unfold download_image_url. cbn [py_rstrip].
    by rewrite rstrip_app_space.
  - exact Hreq.
  - intros other_url fs' f f' Hf Hf'.
    apply download_image_url_returns in Hf as (d & i & Hd & Hi & ->).
    apply download_image_url_returns in Hf' as (d' & i' & Hd' & Hi' & ->).
    congruence.
  - apply rstrip_no_trailing.
  - apply rstrip_decompose.
  - intros Hu. split; [by apply rstrip_spec|].
    intros url' H. rewrite (Hreq url' H). by apply rstrip_clean.
  - intros f Hf. rewrite <- (rstrip_app_space u ws Hws).
    by apply (download_image_url_requests _ _ _ _ _ f).
  - intros Hp. apply download_image_url_parses_stripped.
    by rewrite rstrip_app_space.
Qed.

End Downloader.

(** ** The main block *)

(** Operations of the sequential stages: prints and session requests. *)
Definition is_quiet (e : event) : bool :=
  match e with EvPrint _ | EvSessionGet _ _ => true | _ => false end.

(** Operations of a download task. *)
Definition is_download_step (e : event) : bool :=
  match e with
  | EvMkdir _ | EvRequestsGet _ | EvWriteFile _ => true
  | _ => false
  end.

(** [<root>/filelist.csv] *)
Definition manifest_file (output : string) : path :=
  Path output ++ ["filelist.csv"%string].

Definition header_line : string :=
  ",timestamp,lat,lon,dep,alt,image_url,image_id,deployment_id" +:+ newline.

Section Pipeline.
Context (L : library) (N : network).

Lemma run_bind {A B} (m : M A) (k : A → M B) fs :
  bind m k fs
  = match m fs with
    | (Ok a, fs1, t1) =>
        (outcome (k a fs1), final_fs (k a fs1), t1 ++ trace (k a fs1))
    | (Raise e, fs1, t1) => (Raise e, fs1, t1)
    end.
Proof.
  unfold bind. destruct (m fs) as [[[a|e] fs1] t1]; [|done].
  by destruct (k a fs1) as [[r f] t].
Qed.

Lemma trace_bind_Forall {A B} (P : event → Prop) (m : M A) (k : A → M B) fs :
  Forall P (trace (m fs)) → (∀ a fs', Forall P (trace (k a fs'))) →
  Forall P (trace (bind m k fs)).
Proof.
  intros Hm Hk. rewrite run_bind. destruct (m fs) as [[[a|e] fs1] t1]; [|done].
  cbn in *. apply Forall_app. split; [done|apply Hk].
Qed.

Lemma for_each_trace_Forall {S A} (P : event → Prop) (body : S → A → M S) :
  (∀ s x fs, Forall P (trace (body s x fs))) →
  ∀ l s fs, Forall P (trace (for_each body s l fs)).
Proof.
  intros Hbody. induction l as [|x l IH]; intros s fs; cbn [for_each].
  - constructor.
  - apply trace_bind_Forall; [apply Hbody|]. intros. apply IH.
Qed.

Lemma trace_lift_Forall {A} (P : event → Prop) (r : result A) fs :
  Forall P (trace (lift r fs)).
Proof. constructor. Qed.

Lemma trace_emit_Forall (P : event → Prop) e fs :
  P e → Forall P (trace (emit e fs)).
Proof. by repeat constructor. Qed.

Lemma trace_ret_Forall {A} (P : event → Prop) (a : A) fs :
  Forall P (trace (ret a fs)).
Proof. constructor. Qed.

Ltac quiet_steps :=
  repeat first
    [ apply trace_lift_Forall
    | apply trace_ret_Forall
    | apply trace_emit_Forall; done
    | apply for_each_trace_Forall; intros
    | apply trace_bind_Forall; [|intros]
    | case_match ].

Lemma find_deployments_quiet campaign_list url fs :
  Forall (λ e, is_quiet e = true)
         (trace (find_deployments L N campaign_list url fs)).
Proof.
  unfold find_deployments, find_deployments_body, append_ids, print, s_get,
    loads.
  quiet_steps.
Qed.

Lemma find_images_quiet deployment_list url fs :
  Forall (λ e, is_quiet e = true)
         (trace (find_images_in_deployments L N deployment_list url fs)).
Proof.
  unfold find_images_in_deployments, find_images_body, media_page_body,
    append_media, print, s_get, loads.
  quiet_steps.
Qed.

Lemma download_image_url_steps input fs :
  Forall (λ e, is_download_step e = true)
         (trace (download_image_url L N input fs)).
Proof.
  destruct input as [[[v d] i] out].
  unfold download_image_url, r_get.
  repeat first
    [ apply trace_lift_Forall
    | apply trace_ret_Forall
    | apply trace_emit_Forall; done
    | apply trace_bind_Forall; [|intros]
    | case_match
    | by (unfold get_fs; constructor)
    | by (unfold fs_call; case_match; constructor) ].
Qed.

(** The pool, in terms of the loop over the completion order. *)
Lemma imap_unordered_bar_run {A B} sched (func : A → M B) args n fs :
  0 < n →
  let loop :=
    for_each (λ res_list a, let* res := func a in ret (res_list ++ [res]))
             [] (imap_unordered n sched args) fs in
  imap_unordered_bar sched func args n fs
  = match outcome loop with
    | Ok res_list =>
        (Ok res_list, final_fs loop,
         EvPoolOpen n :: trace loop ++ [EvPoolClose; EvPoolJoin])
    | Raise e => (Raise e, final_fs loop, EvPoolOpen n :: trace loop)
    end.
Proof.
  intros Hn loop. unfold imap_unordered_bar. destruct n as [|n]; [lia|].
  rewrite bind_emit, run_bind. fold loop.
  destruct loop as [[[res|e] f1] t1]; [|done].
  by rewrite !bind_emit.
Qed.

Lemma get_info_run url p fs :
  get_info_to_database L N url p fs
  = (unit_frame L N url p, fs, [EvRequestsGet (pose_url L url (fst p))]).
Proof.
  destruct p as [image_id image_deployment].
  unfold get_info_to_database, unit_frame, r_get.
  rewrite bind_assoc, bind_emit. cbn [fst snd].
  destruct (requests_get N _) as [r_text|e]; [|done].
  by rewrite bind_lift_ok.
Qed.

(** The loop of the metadata pool: one request per completed task, no
    change to the file system. *)
Lemma metadata_loop url order : ∀ acc fs,
  let loop :=
    for_each (λ res_list a,
                let* res := get_info_to_database L N url a in
                ret (res_list ++ [res])) acc order fs in
  Forall (λ e, is_requests_get e = true) (trace loop)
  ∧ final_fs loop = fs
  ∧ (is_ok (outcome loop) = true → length (trace loop) = length order).
Proof.
  induction order as [|p order IH]; intros acc fs; cbn [for_each].
  - by repeat split.
  - rewrite bind_assoc, run_bind, get_info_run.
    destruct (unit_frame L N url p) as [df|e]; [|by repeat split; repeat constructor].
    rewrite bind_ret. destruct (IH (acc ++ [df]) fs) as (Ht & Hf & Hlen).
    cbn [outcome final_fs trace fst snd app]. repeat split; [by constructor|done|].
    intros Hok. cbn. by rewrite Hlen.
Qed.

Lemma get_image_pose_and_url_length sched url image_ids image_deployment fs db :
  outcome (get_image_pose_and_url L N sched url image_ids image_deployment fs)
    = Ok db →
  length (rows db) = length (zip image_ids image_deployment).
Proof.
  intros Hdb.
  pose proof (get_image_pose_and_url_rows L N _ _ _ _ _ _ Hdb) as [_ Hrows].
  revert Hdb. rewrite get_image_pose_and_url_outcome.
  destruct (map_result _ _) as [results|] eqn:Hmap; [|done]. cbn [rbind].
  assert (Hshape : Forall (λ df, columns df = manifest_columns
                                 ∧ Forall (is_manifest_row) (rows df)
                                 ∧ length (rows df) = 1) results).
  { apply map_result_Forall2 in Hmap. clear -Hmap.
    induction Hmap as [|p df l l' Hp _ IH]; constructor; [|done].
    destruct (unit_frame_shape L N url p df Hp)
      as (ts & lat & lon & dep & alt & u & i & d & _ & _ & ->).
    split; [done|]. split; [|done].
    constructor; [|done]. unfold is_manifest_row. eauto 10. }
  rewrite fold_concat_manifest;
    [|done|constructor|eapply Forall_impl; [exact Hshape|by intros ? (?&?&?)]].
  cbn [rows app].
  assert (Hall : Forall is_manifest_row (concat (map rows results))).
  { apply Forall_concat, Forall_fmap. eapply Forall_impl; [exact Hshape|].
    by intros df (_ & H & _). }
  destruct (astype_int L "deployment_id" _) as [db1|] eqn:H1; [|done].
  cbn [rbind]. intros H2.
  apply astype_int_manifest in H1; [|by right|done]. subst db1.
  apply astype_int_manifest in H2; [|by left|done]. subst db. cbn [rows].
  assert (Hlen : length (concat (map rows results)) = length results).
  { clear -Hshape. induction Hshape as [|df l (_ & _ & H1) _ IH]; [done|].
    cbn. rewrite length_app, H1, IH. done. }
  rewrite Hlen. apply map_result_Forall2, Forall2_length in Hmap.
  rewrite <- Hmap. apply Permutation_length, imap_unordered_perm.
  unfold default_processes. lia.
Qed.

(** The aggregator as a run: the pool is opened, one request is made per
    completed task, and when a manifest is returned every task has
    completed and the pool has been closed and joined before. *)
Lemma get_image_pose_and_url_run sched url image_ids image_deployment fs :
  let x := get_image_pose_and_url L N sched url image_ids image_deployment fs in
  ∃ tasks,
    Forall (λ e, is_requests_get e = true) tasks
    ∧ final_fs x = fs
    ∧ (trace x = EvPoolOpen default_processes :: tasks
       ∨ trace x = EvPoolOpen default_processes :: tasks
                   ++ [EvPoolClose; EvPoolJoin])
    ∧ ∀ db, outcome x = Ok db →
        trace x = EvPoolOpen default_processes :: tasks
                  ++ [EvPoolClose; EvPoolJoin]
        ∧ length tasks = length (zip image_ids image_deployment).
Proof.
  intros x. subst x. unfold get_image_pose_and_url.
  change (pd_DataFrame (map (λ c, (c, [])) manifest_columns))
    with (Ok {| columns := manifest_columns; rows := [] |}).
  rewrite bind_lift_ok, run_bind.
  rewrite imap_unordered_bar_run by (unfold default_processes; lia).
  set (order := imap_unordered _ _ _).
  destruct (metadata_loop url order [] fs) as (Ht & Hf & Hlen).
  destruct (for_each _ [] order fs) as [[[results|e] f1] t1];
    cbn [outcome final_fs trace fst snd] in *; subst f1; exists t1.
  - set (db := fold_left _ _ _). clearbody db.
    assert (Hlen' : length t1 = length (zip image_ids image_deployment)).
    { rewrite Hlen by done. apply Permutation_length, imap_unordered_perm.
      unfold default_processes. lia. }
    destruct (astype_int L "deployment_id" db) as [db1|e].
    + rewrite bind_lift_ok.
      destruct (astype_int L "image_id" db1) as [db2|e].
      * rewrite bind_lift_ok. cbn [outcome final_fs trace fst snd ret].
        rewrite app_nil_r. split_and!; [done|done|by right|done].
      * rewrite bind_lift_raise. cbn [outcome final_fs trace fst snd].
        rewrite app_nil_r. split_and!; [done|done|by right|done].
    + rewrite bind_lift_raise. cbn [outcome final_fs trace fst snd].
      rewrite app_nil_r. split_and!; [done|done|by right|done].
  - split_and!; [done|done|by left|done].
Qed.

Lemma os_mkdir_files fs p fs' : os_mkdir fs p = Ok fs' → files fs' = files fs.
Proof. unfold os_mkdir. repeat case_match; intros; by simplify_eq. Qed.

(** Making directories never touches a file. *)
Lemma mkdir_parents_files fuel : ∀ p fs fs',
  mkdir_parents fuel fs p = Ok fs' → files fs' = files fs.
Proof.
  induction fuel as [|fuel IH]; intros p fs fs'; cbn [mkdir_parents].
  - destruct (os_mkdir fs p) as [f|e] eqn:E.
    + intros [= <-]. by apply os_mkdir_files in E.
    + destruct e; try case_match; intros; by simplify_eq.
  - destruct (os_mkdir fs p) as [f|e] eqn:E.
    + intros [= <-]. by apply os_mkdir_files in E.
    + destruct e; try (case_match; intros; by simplify_eq).
      destruct (mkdir_parents fuel fs (parent p)) as [fs1|] eqn:E1; [|done].
      cbn [rbind]. apply IH in E1.
      destruct (os_mkdir fs1 p) as [f2|e2] eqn:E2.
      * intros [= <-]. apply os_mkdir_files in E2. congruence.
      * case_match; intros; by simplify_eq.
Qed.

(** A download writes at most the file named by its ids: every path that
    does not lie two levels below the output root keeps its content. *)
Lemma download_image_url_other_files v d i output fs (p : path) :
  length p ≠ length (Path output) + 2 →
  files (final_fs (download_image_url L N (v, d, i, output) fs)) !! p
  = files fs !! p.
Proof.
  intros Hp. unfold download_image_url.
  destruct (py_rstrip v) as [s|]; [|done]. rewrite !bind_lift_ok.
  destruct (urlparse_ok L s); [|done]. rewrite bind_lift_ok.
  destruct (py_int L d) as [d'|]; [|done]. rewrite bind_lift_ok.
  destruct (py_int L i) as [i'|]; [|done]. rewrite bind_lift_ok.
  rewrite image_file_div, bind_get_fs.
  assert (Hne : image_file output d' i' ≠ p).
  { intros <-. unfold image_file in Hp. rewrite length_app in Hp. by cbn in Hp. }
  set (file := image_file output d' i') in *. clearbody file.
  set (dp := path_div (Path output) (str_of_Z d')). clearbody dp.
  set (mk := if path_exists fs dp then ret tt
            else do emit (EvMkdir dp) in fs_call (λ fs0, mkdir fs0 dp)).
  rewrite run_bind.
  assert (Hmk : ∀ r fs1 t1, mk fs = (r, fs1, t1) → files fs1 = files fs).
  { intros r fs1 t1. unfold mk.
    destruct (path_exists fs dp); [by intros [= _ <- _]|].
    rewrite bind_emit. unfold fs_call, mkdir.
    destruct (mkdir_parents _ fs dp) as [fs2|e] eqn:E;
      cbn [outcome final_fs trace fst snd]; intros [= _ <- _]; [|done].
    by apply mkdir_parents_files in E. }
  destruct (mk fs) as [[r fs1] t1]. specialize (Hmk r fs1 t1 eq_refl).
  destruct r as [[]|e]; cbn [final_fs fst snd]; [|by rewrite Hmk].
  rewrite <- Hmk. rewrite bind_lift_ok. unfold r_get.
  rewrite bind_assoc, bind_emit. cbn [final_fs fst snd].
  destruct (requests_get N s) as [img|e]; [|done].
  rewrite bind_lift_ok, bind_emit. cbn [final_fs fst snd].
  rewrite run_bind. unfold fs_call.
  destruct (write_file fs1 file img) as [fs2|e] eqn:Ew; [|done].
  cbn [final_fs fst snd ret]. unfold write_file in Ew.
  repeat case_match; simplify_eq. cbn [files]. by rewrite lookup_insert_ne.
Qed.

Lemma for_each_final_fs {S A} (P : filesystem → Prop) (body : S → A → M S)
  (l : list A) :
  (∀ s x fs, x ∈ l → P fs → P (final_fs (body s x fs))) →
  ∀ s fs, P fs → P (final_fs (for_each body s l fs)).
Proof.
  induction l as [|x l IH]; intros Hbody s fs HP; cbn [for_each]; [done|].
  rewrite run_bind.
  pose proof (Hbody s x fs ltac:(constructor) HP) as Hx.
  destruct (body s x fs) as [[[s1|e] fs1] t1]; [|done].
  cbn [final_fs fst snd]. apply IH; [|done].
  intros s' y fs' Hy. apply Hbody. by constructor.
Qed.

Lemma zip3_output {A B C} (output : string) (la : list A) (lb : list B)
  (lc : list C) x :
  x ∈ zip3 output la lb lc → snd x = output.
Proof. unfold zip3. intros (y & -> & _)%list_elem_of_fmap. done. Qed.

(** The whole download pool leaves the manifest file as it is. *)
Lemma download_pool_other_files sched output
  (zipped : list (pyval * pyval * pyval * string)) fs (p : path) :
  (∀ x, x ∈ zipped → snd x = output) →
  length p ≠ length (Path output) + 2 →
  files (final_fs (imap_unordered_bar sched (download_image_url L N) zipped
                     default_processes fs)) !! p
  = files fs !! p.
Proof.
  intros Hout Hp.
  rewrite imap_unordered_bar_run by (unfold default_processes; lia).
  set (order := imap_unordered _ _ _).
  assert (Horder : ∀ x, x ∈ order → snd x = output).
  { intros x Hx. apply Hout. revert Hx. unfold order.
    by rewrite imap_unordered_perm by (unfold default_processes; lia). }
  assert (H : files (final_fs (for_each
              (λ res_list a, let* res := download_image_url L N a in
                             ret (res_list ++ [res])) [] order fs)) !! p
              = files fs !! p).
  { apply (for_each_final_fs (λ f, files f !! p = files fs !! p)); [|done].
    intros s [[[v d] i] out] fs' Hx HP. specialize (Horder _ Hx). cbn in Horder.
    subst out. rewrite run_bind.
    pose proof (download_image_url_other_files v d i output fs' p Hp) as Hd.
    destruct (download_image_url L N _ fs') as [[[f|e] fs1] t1];
      cbn [final_fs fst snd ret] in *; congruence. }
  by destruct (for_each _ [] order fs) as [[[res|e] f1] t1].
Qed.

Lemma download_pool_steps sched zipped fs :
  ∃ steps closing,
    trace (imap_unordered_bar sched (download_image_url L N) zipped
             default_processes fs)
    = EvPoolOpen default_processes :: steps ++ closing
    ∧ Forall (λ e, is_download_step e = true) steps
    ∧ (closing = []
       ∧ is_ok (outcome (imap_unordered_bar sched (download_image_url L N)
                           zipped default_processes fs)) = false
       ∨ closing = [EvPoolClose; EvPoolJoin]
         ∧ is_ok (outcome (imap_unordered_bar sched (download_image_url L N)
                             zipped default_processes fs)) = true).
Proof.
  rewrite imap_unordered_bar_run by (unfold default_processes; lia).
  set (loop := for_each _ _ _ _).
  assert (Hsteps : Forall (λ e, is_download_step e = true) (trace loop)).
  { apply for_each_trace_Forall. intros s x fs'.
    apply trace_bind_Forall; [apply download_image_url_steps|].
    intros. apply trace_ret_Forall. }
  destruct (outcome loop); cbn [outcome trace fst snd is_ok].
  - exists (trace loop), [EvPoolClose; EvPoolJoin]. eauto.
  - exists (trace loop), []. rewrite app_nil_r. eauto.
Qed.

Lemma count_app P t1 t2 : count P (t1 ++ t2) = count P t1 + count P t2.
Proof. unfold count. by rewrite List.filter_app, length_app. Qed.

Lemma count_cons P e t :
  count P (e :: t) = (if P e then 1 else 0) + count P t.
Proof. unfold count. cbn. by destruct (P e). Qed.

Lemma count_zero (P Q : event → bool) t :
  Forall (λ e, Q e = true) t → (∀ e, Q e = true → P e = false) →
  count P t = 0.
Proof.
  intros Ht HPQ. induction Ht as [|e t He _ IH]; [done|].
  rewrite count_cons, (HPQ e He), IH. done.
Qed.

Lemma manifest_file_div output :
  path_div (Path output) "filelist.csv" = manifest_file output.
Proof. by apply path_div_plain. Qed.

Lemma manifest_file_length output :
  length (manifest_file output) ≠ length (Path output) + 2.
Proof. unfold manifest_file. rewrite length_app. cbn. lia. Qed.

(** The directory step of the main block and of a download. *)
Lemma mkdir_step_run (p : path) fs :
  let x := (if path_exists fs p then ret tt
            else do emit (EvMkdir p) in fs_call (λ fs0, mkdir fs0 p)) fs in
  (trace x = [] ∨ trace x = [EvMkdir p]).
Proof.
  cbn zeta. destruct (path_exists fs p); [by left|]. right.
  rewrite bind_emit. unfold fs_call. by destruct (mkdir fs p).
Qed.

(** [to_csv] emits its operation and, when it succeeds, leaves the text of
    the frame at the path. *)
Lemma to_csv_run df (p : path) fs :
  let x := to_csv L df p fs in
  trace x = [EvToCsv p]
  ∧ (outcome x = Ok tt → files (final_fs x) !! p = Some (csv_text L df)).
Proof.
  cbn zeta. unfold to_csv. rewrite bind_emit. unfold fs_call.
  destruct (write_file fs p (csv_text L df)) as [fs'|e] eqn:E; [|done].
  split; [done|]. intros _. cbn [final_fs fst snd]. unfold write_file in E.
  repeat case_match; simplify_eq. cbn [files]. by rewrite lookup_insert_eq.
Qed.

Definition storing_line : event :=
  EvPrint [PyStr "Storing dataset CSV containing image URLs"].
Definition downloading_line : event := EvPrint [PyStr "Downloading images..."].
Definition done_line : event := EvPrint [PyStr "Done"].

(** Computations that leave the file system alone. *)
Definition keeps_fs {A} (m : M A) : Prop := ∀ fs, final_fs (m fs) = fs.

Lemma keeps_fs_bind {A B} (m : M A) (k : A → M B) :
  keeps_fs m → (∀ a, keeps_fs (k a)) → keeps_fs (bind m k).
Proof.
  intros Hm Hk fs. rewrite run_bind. specialize (Hm fs).
  destruct (m fs) as [[[a|e] f1] t1]; cbn in *; subst; [apply Hk|done].
Qed.

Lemma keeps_fs_for_each {S A} (body : S → A → M S) (l : list A) :
  (∀ s x, keeps_fs (body s x)) → ∀ s, keeps_fs (for_each body s l).
Proof.
  intros Hbody. induction l as [|x l IH]; intros s; cbn [for_each]; [done|].
  by apply keeps_fs_bind.
Qed.

Lemma find_deployments_keeps_fs campaign_list url :
  keeps_fs (find_deployments L N campaign_list url).
Proof.
  unfold find_deployments, find_deployments_body, append_ids, print, s_get,
    loads.
  repeat first
    [ apply keeps_fs_for_each; intros
    | apply keeps_fs_bind; [|intros]
    | case_match
    | done ].
Qed.

Lemma find_images_keeps_fs deployment_list url :
  keeps_fs (find_images_in_deployments L N deployment_list url).
Proof.
  unfold find_images_in_deployments, find_images_body, media_page_body,
    append_media, print, s_get, loads.
  repeat first
    [ apply keeps_fs_for_each; intros
    | apply keeps_fs_bind; [|intros]
    | case_match
    | done ].
Qed.

(** The directory step never touches a file. *)
Lemma mkdir_step_files (p : path) fs :
  files (final_fs ((if path_exists fs p then ret tt
                    else do emit (EvMkdir p) in
                         fs_call (λ fs0, mkdir fs0 p)) fs))
  = files fs.
Proof.
  destruct (path_exists fs p); [done|]. rewrite bind_emit. unfold fs_call, mkdir.
  destruct (mkdir_parents _ fs p) as [fs'|e] eqn:E; [|done].
  cbn [final_fs fst snd]. by apply mkdir_parents_files in E.
Qed.

(** A [to_csv] that raises has written nothing. *)
Lemma to_csv_raises df (p : path) fs :
  is_ok (outcome (to_csv L df p fs)) = false → final_fs (to_csv L df p fs) = fs.
Proof.
  unfold to_csv. rewrite bind_emit. unfold fs_call.
  by destruct (write_file fs p (csv_text L df)).
Qed.

Ltac count_events :=
  repeat (rewrite count_app || rewrite count_cons);
  repeat match goal with
         | H : Forall (λ e, ?Q e = true) ?t |- context [count ?P ?t] =>
             rewrite (count_zero P Q t) by (done || by intros [])
         end;
  cbn; try lia.

(** No [to_csv] other than the one for [<root>/filelist.csv]. *)
Definition only_manifest (output : string) (e : event) : Prop :=
  is_to_csv e = true → e = EvToCsv (manifest_file output).

Ltac only_manifest_events :=
  repeat (rewrite Forall_app || rewrite Forall_cons || rewrite Forall_nil);
  unfold only_manifest;
  repeat split; try done;
  try (eapply Forall_impl; [eassumption|]; by intros []).

Ltac stopped_run :=
  split_and!; [done|count_events..|done|only_manifest_events].

(** The shape of every run of the main block.  Either it ends in an
    exception before the download pool is opened, or its trace is: the
    sequential stages, the metadata pool from opening to join with one
    request per manifest row, the directory step, the storing of the
    manifest, and only then the download pool. *)
Lemma main_run sched_meta sched_download campaign_list url output fs :
  let x := main L N sched_meta sched_download campaign_list url output fs in
  (is_ok (outcome x) = false
   ∧ count is_pool_open (trace x) ≤ 1
   ∧ count is_write_file (trace x) = 0
   ∧ count is_to_csv (trace x) ≤ 1
   ∧ files (final_fs x) = files fs
   ∧ Forall (only_manifest output) (trace x))
  ∨ ∃ database t_before tasks t_mkdir steps closing,
      trace x
      = t_before
        ++ EvPoolOpen default_processes :: tasks ++ [EvPoolClose; EvPoolJoin]
        ++ t_mkdir
        ++ [storing_line; EvToCsv (manifest_file output); downloading_line]
        ++ EvPoolOpen default_processes :: steps ++ closing
      ∧ Forall (λ e, is_quiet e = true) t_before
      ∧ Forall (λ e, is_requests_get e = true) tasks
      ∧ length tasks = length (rows database)
      ∧ columns database = manifest_columns
      ∧ (t_mkdir = [] ∨ t_mkdir = [EvMkdir (Path output)])
      ∧ Forall (λ e, is_download_step e = true) steps
      ∧ (closing = [] ∧ is_ok (outcome x) = false
         ∨ closing = [EvPoolClose; EvPoolJoin; done_line] ∧ outcome x = Ok tt)
      ∧ files (final_fs x) !! manifest_file output
        = Some (csv_text L database).
Proof.
  cbn zeta. unfold main, print.
  (* find_deployments *)
  rewrite run_bind.
  pose proof (find_deployments_quiet campaign_list url fs) as Hq1.
  pose proof (find_deployments_keeps_fs campaign_list url fs) as Hk1.
  destruct (find_deployments L N campaign_list url fs) as [[[dl|e] f1] t1];
    cbn [final_fs trace fst snd] in Hq1, Hk1; subst f1.
  2:{ left. cbn [outcome final_fs trace fst snd is_ok].
      stopped_run. }
  (* find_images_in_deployments *)
  rewrite run_bind.
  pose proof (find_images_quiet dl url fs) as Hq2.
  pose proof (find_images_keeps_fs dl url fs) as Hk2.
  destruct (find_images_in_deployments L N dl url fs) as [[[found|e] f2] t2];
    cbn [final_fs trace fst snd] in Hq2, Hk2; subst f2;
    cbn [outcome final_fs trace fst snd].
  2:{ left. cbn [is_ok]. stopped_run. }
  rewrite bind_emit. cbn [outcome final_fs trace fst snd].
  (* get_image_pose_and_url *)
  rewrite run_bind.
  destruct (get_image_pose_and_url_run sched_meta url (fst found) (snd found) fs)
    as (tasks & Htasks & Hfs & Htrace & Hok).
  pose proof (get_image_pose_and_url_rows L N sched_meta url (fst found)
                (snd found) fs) as Hcols.
  pose proof (get_image_pose_and_url_length sched_meta url (fst found)
                (snd found) fs) as Hlen.
  destruct (get_image_pose_and_url L N sched_meta url (fst found) (snd found) fs)
    as [[[database|e] f3] t3]; cbn [outcome final_fs trace fst snd] in *;
    subst f3.
  2:{ left. cbn [is_ok].
      destruct Htrace as [-> | ->]; stopped_run. }
  destruct (Hok database eq_refl) as [-> Hn]. clear Hok Htrace.
  destruct (Hcols database eq_refl) as [Hc _]. specialize (Hlen database eq_refl).
  clear Hcols.
  rewrite bind_get_fs, run_bind.
  (* the output directory *)
  pose proof (mkdir_step_run (Path output) fs) as Hmk. cbn zeta in Hmk.
  pose proof (mkdir_step_files (Path output) fs) as Hmf.
  destruct ((if path_exists fs (Path output) then ret tt
             else do emit (EvMkdir (Path output)) in
                  fs_call (λ fs0, mkdir fs0 (Path output))) fs)
    as [[[[]|e] f4] t4]; cbn [outcome final_fs trace fst snd] in *.
  2:{ left. cbn [is_ok].
      destruct Hmk as [-> | ->]; stopped_run. }
  rewrite bind_emit. cbn [outcome final_fs trace fst snd].
  (* to_csv *)
  rewrite run_bind, manifest_file_div.
  destruct (to_csv_run database (manifest_file output) f4) as [Hct Hcf].
  pose proof (to_csv_raises database (manifest_file output) f4) as Hcr.
  destruct (to_csv L database (manifest_file output) f4) as [[[[]|e] f5] t5];
    cbn [outcome final_fs trace fst snd is_ok] in *; subst t5.
  2:{ left. rewrite (Hcr eq_refl).
      destruct Hmk as [-> | ->]; stopped_run. }
  specialize (Hcf eq_refl).
  rewrite bind_emit. cbn [outcome final_fs trace fst snd].
  (* the download pool *)
  rewrite run_bind.
  set (zipped := zip3 output _ _ _).
  destruct (download_pool_steps sched_download zipped f5)
    as (steps & closing & Hdt & Hsteps & Hclosing).
  pose proof (download_pool_other_files sched_download output zipped f5
                (manifest_file output)
                (λ x, zip3_output output _ _ _ x)
                (manifest_file_length output)) as Hkeep.
  destruct (imap_unordered_bar sched_download (download_image_url L N) zipped
              default_processes f5) as [[[res|e] f6] t6];
    cbn [outcome final_fs trace fst snd is_ok] in *; subst t6; right;
    destruct Hclosing as [[-> ?] | [-> ?]]; try done.
  - unfold emit. cbn [outcome final_fs trace fst snd].
    exists database, (t1 ++ t2 ++ [EvPrint
      [PyStr "Getting image poses and URLs (not downloading data yet)"]]),
      tasks, t4, steps, [EvPoolClose; EvPoolJoin; done_line].
    split_and!; try done.
    + rewrite <- !app_assoc. cbn [app]. rewrite <- !app_assoc. reflexivity.
    + rewrite !Forall_app. split_and!; [done|done|by constructor].
    + by rewrite Hn, Hlen.
    + by right.
    + by rewrite Hkeep.
  - exists database, (t1 ++ t2 ++ [EvPrint
      [PyStr "Getting image poses and URLs (not downloading data yet)"]]),
      tasks, t4, steps, [].
    split_and!; try done.
    + rewrite <- !app_assoc. cbn [app]. rewrite <- !app_assoc. reflexivity.
    + rewrite !Forall_app. split_and!; [done|done|by constructor].
    + by rewrite Hn, Hlen.
    + by left.
    + by rewrite Hkeep.
Qed.

Lemma prefix_append s t : String.prefix s (s +:+ t) = true.
Proof.
  induction s as [|c s IH]; [by destruct t|].
  change (String c s +:+ t) with (String c (s +:+ t)). cbn [String.prefix].
  by destruct (ascii_dec c c).
Qed.

Lemma prefix_refl s : String.prefix s s = true.
Proof. induction s as [|c s IH]; [done|]. cbn. by destruct (ascii_dec c c). Qed.

(** The text [to_csv] writes begins with the header line: an empty index
    label, then the column labels. *)
Lemma csv_text_header df :
  columns df = manifest_columns →
  hd [] (csv_lines L df) = EmptyString :: manifest_columns
  ∧ String.prefix header_line (csv_text L df) = true.
Proof.
  intros Hc. unfold csv_text, csv_lines. rewrite Hc. split; [done|].
  cbn [map String.concat].
  change (join_with "," (EmptyString :: manifest_columns) +:+ newline)
    with header_line.
  destruct (map _ (imap _ (rows df))); [apply prefix_refl|apply prefix_append].
Qed.

(** The lines [to_csv] writes for a frame with the eight columns: the
    header line and one line per row; the line of row [i] is the index [i]
    followed by the row's cells under the eight labels; nine fields each. *)
Lemma csv_lines_fields df :
  columns df = manifest_columns →
  length (csv_lines L df) = S (length (rows df))
  ∧ (∀ i r, rows df !! i = Some r →
       csv_lines L df !! S i
       = Some (str_of_Z (Z.of_nat i)
               :: map (λ c, csv_cell L (default NaN (assoc c r)))
                      manifest_columns))
  ∧ Forall (λ fields, length fields = 9) (csv_lines L df).
Proof.
  intros Hc. unfold csv_lines. rewrite Hc. split_and!.
  - cbn [length]. by rewrite length_imap.
  - intros i r Hr. cbn [lookup list_lookup]. change (imap ?f ?l !! i) with
      (imap f l !! i). by rewrite list_lookup_imap, Hr.
  - constructor; [done|]. apply Forall_lookup. intros i fields Hi.
    rewrite list_lookup_imap in Hi.
    destruct (rows df !! i) as [r|]; [|done]. cbn in Hi. by simplify_eq.
Qed.

(** C9.  In every run of the main block, either the run stops before a
    second pool is opened and no image file is written; or the trace is,
    in this order: the sequential stages; the metadata pool, opened, one
    request per row of the manifest, closed and joined; the storing of the
    manifest at [<root>/filelist.csv], with no pool and no download
    operation; and then the download pool, in which the manifest is
    not written again.  The stored manifest is still in place at the end. *)
Theorem download_after_manifest (sched_meta sched_download : list nat)
  (campaign_list : list string) (url output : string) (fs : filesystem) :
  let x := main L N sched_meta sched_download campaign_list url output fs in
  (is_ok (outcome x) = false
   ∧ count is_pool_open (trace x) ≤ 1
   ∧ count is_write_file (trace x) = 0)
  ∨ ∃ database t_before tasks t_store steps closing,
      trace x
      = t_before
        ++ (EvPoolOpen default_processes :: tasks ++ [EvPoolClose; EvPoolJoin])
        ++ t_store
        ++ (EvPoolOpen default_processes :: steps ++ closing)
      ∧ Forall (λ e, is_quiet e = true) t_before
      ∧ Forall (λ e, is_requests_get e = true) tasks
      ∧ length tasks = length (rows database)
      ∧ EvToCsv (manifest_file output) ∈ t_store
      ∧ Forall (λ e, is_pool_open e = false ∧ is_write_file e = false
                     ∧ is_requests_get e = false) t_store
      ∧ files (final_fs x) !! manifest_file output
        = Some (csv_text L database)
      ∧ Forall (λ e, is_download_step e = true) steps
      ∧ Forall (λ e, is_to_csv e = false ∧ is_pool_open e = false
                     ∧ is_download_step e = false) closing.
Proof.
  intros x.
  destruct (main_run sched_meta sched_download campaign_list url output fs)
    as [(H1 & H2 & H3 & _) |
        (database & t_before & tasks & t_mkdir & steps & closing
         & Ht & Hb & Htasks & Hlen & _ & Hmk & Hsteps & Hclosing & Hfile)];
    [by left|right].
  exists database, t_before, tasks,
    (t_mkdir ++ [storing_line; EvToCsv (manifest_file output); downloading_line]),
    steps, closing.
  split_and!; try done.
  - subst x. rewrite Ht. cbn [app]. by rewrite <- ?app_assoc.
  - repeat (rewrite elem_of_app || rewrite elem_of_cons). auto 10.
  - destruct Hmk as [-> | ->]; repeat constructor.
  - destruct Hclosing as [[-> _] | [-> _]]; repeat constructor.
Qed.

(** C8, as the code has it.  In every run of the main block [to_csv] is
    called at most once, and for no other path than [<root>/filelist.csv].
    Either the run ends in an exception before the download pool is opened,
    and then no file is stored or changed; or the manifest is stored:
    [to_csv] is called once, the download pool is opened after it, and,
    whether the downloads end well or raise, the file holds the text of a
    manifest whose columns are the eight labels.  That text has the header
    line and one line per row; the header is an empty index label followed
    by the eight labels, the line of row [i] is the index [i] followed by
    the row's cells under the eight labels: every line has nine fields. *)
Theorem manifest_file_written_once (sched_meta sched_download : list nat)
  (campaign_list : list string) (url output : string) (fs : filesystem) :
  let x := main L N sched_meta sched_download campaign_list url output fs in
  count is_to_csv (trace x) ≤ 1
  ∧ Forall (only_manifest output) (trace x)
  ∧ ((is_ok (outcome x) = false
      ∧ count is_pool_open (trace x) ≤ 1
      ∧ files (final_fs x) = files fs)
     ∨ ∃ database,
         columns database = manifest_columns
         ∧ count is_pool_open (trace x) = 2
         ∧ count is_to_csv (trace x) = 1
         ∧ EvToCsv (manifest_file output) ∈ trace x
         ∧ files (final_fs x) !! manifest_file output
           = Some (csv_text L database)
         ∧ hd [] (csv_lines L database) = EmptyString :: manifest_columns
         ∧ String.prefix header_line (csv_text L database) = true
         ∧ length (csv_lines L database) = S (length (rows database))
         ∧ (∀ i r, rows database !! i = Some r →
              csv_lines L database !! S i
              = Some (str_of_Z (Z.of_nat i)
                      :: map (λ c, csv_cell L (default NaN (assoc c r)))
                             manifest_columns))
         ∧ Forall (λ fields, length fields = 9) (csv_lines L database)).
Proof.
  intros x.
  destruct (main_run sched_meta sched_download campaign_list url output fs)
    as [(Hok & Hpool & _ & Hcsv & Hfiles & Honly) |
        (database & t_before & tasks & t_mkdir & steps & closing
         & Ht & Hb & Htasks & Hlen & Hc & Hmk & Hsteps & Hclosing & Hfile)].
  { fold x in Hok, Hpool, Hcsv, Hfiles, Honly. split_and!; [done..|by left]. }
  fold x in Ht, Hclosing, Hfile.
  destruct (csv_text_header database Hc) as [Hhd Hpre].
  destruct (csv_lines_fields database Hc) as (Hlines & Hrow & Hnine).
  assert (count is_to_csv (trace x) = 1) as Hone.
  { rewrite Ht.
    destruct Hclosing as [[-> _] | [-> _]]; destruct Hmk as [-> | ->];
      count_events. }
  split_and!; [lia| |right; exists database; split_and!; try done].
  - rewrite Ht.
    destruct Hclosing as [[-> _] | [-> _]]; destruct Hmk as [-> | ->];
      only_manifest_events.
  - rewrite Ht.
    destruct Hclosing as [[-> _] | [-> _]]; destruct Hmk as [-> | ->];
      count_events.
  - rewrite Ht. repeat (rewrite elem_of_app || rewrite elem_of_cons). auto 20.
Qed.

End Pipeline.

(** ** The properties on the example catalog *)

(** The fields of the first line of a CSV text. *)
Fixpoint first_line (s : string) : string :=
  match s with
  | EmptyString => EmptyString
  | String c s' => if Ascii.eqb c "010" then EmptyString
                   else String c (first_line s')
  end.

Fixpoint split_comma (s : string) : list string :=
  match s with
  | EmptyString => [EmptyString]
  | String c s' =>
      if Ascii.eqb c "," then EmptyString :: split_comma s'
      else match split_comma s' with
           | h :: t => String c h :: t
           | [] => [String c EmptyString]
           end
  end.

Definition file_columns (text : string) : list string :=
  split_comma (first_line text).

(** The deployment directory exists already and holds a sibling image. *)
Definition sibling_fs : filesystem :=
  {| dirs := {[ ["out"%string]; ["out"; "10"]%string ]};
     files := {[ ["out"; "10"; "501.png"]%string := "bytes of 501.jpg"%string ]} |}.

Lemma find_deployments_skips_server_error_witness :
  let logged :=
    [EvPrint [PyStr "Looking for campaign:"; PyStr "down"];
     EvSessionGet (Demo.base_url +:+ "/api/deployment")
                  (campaign_params Demo.lib "down");
     EvPrint [PyStr server_error_line]] in
  find_deployments_body Demo.lib Demo.net Demo.base_url [PyInt 12] "down"
                        Demo.empty_fs
  = (Ok [PyInt 12], Demo.empty_fs, logged)
  ∧ for_each (find_deployments_body Demo.lib Demo.net Demo.base_url)
             [PyInt 12] ["down"; "small"]%string Demo.empty_fs
    = (let x := for_each (find_deployments_body Demo.lib Demo.net Demo.base_url)
                         [PyInt 12] ["small"%string] Demo.empty_fs in
       (outcome x, final_fs x, logged ++ trace x)).
Proof.
  apply (find_deployments_skips_server_error Demo.lib Demo.net Demo.base_url
           [PyInt 12] "down" ["small"%string] Demo.empty_fs Demo.error_500);
    vm_compute; reflexivity.
Defined.

(** C4 as stated fails: the answer for the campaign ["gone"] is an HTML
    error page, not JSON, without the 500 marker; the resolver raises the
    decoder's exception and never reaches the next campaign. *)
Lemma find_deployments_raises_on_other_error_page :
  session_get Demo.net (Demo.base_url +:+ "/api/deployment")
              (campaign_params Demo.lib "gone") = Ok Demo.error_404
  ∧ json_loads Demo.lib Demo.error_404 = None
  ∧ outcome (find_deployments Demo.lib Demo.net ["gone"; "small"]%string
               Demo.base_url Demo.empty_fs)
    = Raise JSONDecodeError.
Proof. vm_compute. repeat split. Qed.


Lemma manifest_one_row_per_pair_witness :
  ∃ database,
    outcome (get_image_pose_and_url Demo.lib Demo.net [1] Demo.base_url
               [PyInt 500; PyStr "501"] [PyInt 12; PyStr "12"] Demo.empty_fs)
      = Ok database
    ∧ columns database = manifest_columns
    ∧ length (rows database)
      = length (zip [PyInt 500; PyStr "501"] [PyInt 12; PyStr "12"])
    ∧ map (row_key) (rows database)
      ≡ₚ map (λ k, (Some (fst k), Some (snd k)))
             [(PyInt 500, PyInt 12); (PyInt 501, PyInt 12)].
Proof.
  apply (manifest_one_row_per_pair Demo.lib Demo.net [1] Demo.base_url
           [PyInt 500; PyStr "501"] [PyInt 12; PyStr "12"] Demo.empty_fs
           [(PyInt 500, PyInt 12); (PyInt 501, PyInt 12)]).
  - intros p Hp. apply list_elem_of_In in Hp.
    destruct Hp as [<- | [<- | []]]; vm_compute; reflexivity.
  - vm_compute. reflexivity.
Defined.

(** The manifest of two images of deployment 12, one of them given by str
    ids; the pose records carry the coordinates as strings, an int and a
    float. *)
Definition example_manifest : DataFrame :=
  Eval vm_compute in
    match outcome (get_image_pose_and_url Demo.lib Demo.net [1] Demo.base_url
                     [PyInt 500; PyStr "501"] [PyInt 12; PyStr "12"]
                     Demo.empty_fs) with
    | Ok db => db
    | Raise _ => {| columns := []; rows := [] |}
    end.

Definition example_row : list (string * pyval) :=
  Eval vm_compute in hd [] (rows example_manifest).

Lemma manifest_cell_types_witness :
  has_int "image_id" example_row = true
  ∧ has_int "deployment_id" example_row = true
  ∧ has_float "lat" example_row = true ∧ has_float "lon" example_row = true
  ∧ has_float "dep" example_row = true ∧ has_float "alt" example_row = true.
Proof.
  apply (manifest_cell_types Demo.lib Demo.net [1] Demo.base_url
           [PyInt 500; PyStr "501"] [PyInt 12; PyStr "12"] Demo.empty_fs
           example_manifest example_row).
  - vm_compute. reflexivity.
  - apply list_elem_of_In. left. reflexivity.
Defined.

Lemma download_image_url_writes_png_witness :
  let x := download_image_url Demo.lib Demo.net
             (PyStr "http://x/500.jpg", PyInt 10, PyInt 500, "out"%string)
             sibling_fs in
  outcome x = Ok (image_file "out" 10 500)
  ∧ files (final_fs x)
    = <[image_file "out" 10 500 := "bytes of 500.jpg"%string]>
        (files sibling_fs)
  ∧ is_dir (final_fs x) (deployment_dir "out" 10) = true
  ∧ dirs sibling_fs ⊆ dirs (final_fs x)
  ∧ (is_dir sibling_fs (deployment_dir "out" 10) = true →
     dirs (final_fs x) = dirs sibling_fs
     ∧ trace x = [EvRequestsGet (rstrip "http://x/500.jpg");
                  EvWriteFile (image_file "out" 10 500)]).
Proof.
  apply (download_image_url_writes_png Demo.lib Demo.net "http://x/500.jpg"
           (PyInt 10) (PyInt 500) "out" sibling_fs 10 500 "bytes of 500.jpg").
  - vm_compute. reflexivity.
  - reflexivity.
  - reflexivity.
  - vm_compute. reflexivity.
  - intros [|[|[|n]]]; vm_compute; reflexivity.
  - vm_compute. reflexivity.
Defined.

Lemma download_image_url_strips_url_witness :
  let dirty := "http://x/500.jpg" +:+ (" " +:+ newline) in
  let run v :=
    download_image_url Demo.lib Demo.net
      (PyStr v, PyInt 10, PyInt 500, "out"%string) Demo.empty_fs in
  all_space (" " +:+ newline) = true
  ∧ no_trailing_space "http://x/500.jpg" = true
  ∧ rstrip dirty = "http://x/500.jpg"%string
  ∧ run dirty = run "http://x/500.jpg"%string
  ∧ outcome (run dirty) = Ok (image_file "out" 10 500)
  ∧ List.filter is_requests_get (trace (run dirty))
    = [EvRequestsGet "http://x/500.jpg"]
  ∧ (∀ url', EvRequestsGet url' ∈ trace (run dirty) →
             url' = "http://x/500.jpg"%string)
  ∧ (∀ other_url fs' f',
       outcome (download_image_url Demo.lib Demo.net
                  (other_url, PyInt 10, PyInt 500, "out"%string) fs')
         = Ok f' →
       f' = image_file "out" 10 500).
Proof.
  cbn zeta.
  destruct (download_image_url_strips_url Demo.lib Demo.net "http://x/500.jpg"
              (" " +:+ newline) (PyInt 10) (PyInt 500) "out" Demo.empty_fs
              eq_refl)
    as (Hsame & _ & Hfile & _ & Hclean & Hone & _).
  destruct (Hclean eq_refl) as [Hstrip Hreq].
  assert (outcome (download_image_url Demo.lib Demo.net
                     (PyStr ("http://x/500.jpg" +:+ (" " +:+ newline)),
                      PyInt 10, PyInt 500, "out"%string) Demo.empty_fs)
          = Ok (image_file "out" 10 500)) as Hok
    by (vm_compute; reflexivity).
  split_and!; [reflexivity|reflexivity|exact Hstrip|exact Hsame|exact Hok
              | |exact Hreq|].
  - rewrite (Hone _ Hok). reflexivity.
  - intros other_url fs' f' Hf'. symmetry.
    exact (Hfile other_url fs' _ f' Hok Hf').
Defined.

(** The lines of a text, each without its newline. *)
Fixpoint text_lines (s : string) : list string :=
  match s with
  | EmptyString => []
  | String c s' =>
      if Ascii.eqb c "010" then EmptyString :: text_lines s'
      else match text_lines s' with
           | h :: t => String c h :: t
           | [] => [String c EmptyString]
           end
  end.

(** A file stands where the directory of deployment 12 should be: every
    download raises. *)
Definition blocked_fs : filesystem :=
  {| dirs := {[ ["out"%string] ]};
     files := {[ ["out"; "12"]%string := "not a directory"%string ]} |}.

Lemma manifest_file_written_once_witness :
  let x := main Demo.lib Demo.net [1] [0; 1] ["small"%string] Demo.base_url
                "out" Demo.empty_fs in
  outcome x = Ok tt
  ∧ ∃ database,
      columns database = manifest_columns
      ∧ count is_to_csv (trace x) = 1
      ∧ Forall (only_manifest "out") (trace x)
      ∧ files (final_fs x) !! manifest_file "out"
        = Some (csv_text Demo.lib database)
      ∧ length (csv_lines Demo.lib database) = S (length (rows database))
      ∧ Forall (λ fields, length fields = 9) (csv_lines Demo.lib database).
Proof.
  cbn zeta. split; [vm_compute; reflexivity|].
  destruct (manifest_file_written_once Demo.lib Demo.net [1] [0; 1]
              ["small"%string] Demo.base_url "out" Demo.empty_fs)
    as (_ & Honly & [(Hbad & _) |
                      (database & Hc & _ & Hone & _ & Hfile & _ & _ & Hlen
                       & _ & Hnine)]).
  - exfalso. vm_compute in Hbad. discriminate.
  - exists database. repeat split; assumption.
Defined.

(** The manifest is stored also when the downloads raise: in this run every
    download fails, the run ends in an exception after the download pool was
    opened, and the file is in place, with its nine fields per line. *)
Lemma manifest_stored_when_downloads_raise :
  let y := main Demo.lib Demo.net [1] [0; 1] ["small"%string] Demo.base_url
                "out" blocked_fs in
  is_ok (outcome y) = false
  ∧ count is_pool_open (trace y) = 2
  ∧ count is_to_csv (trace y) = 1
  ∧ ∃ text,
      files (final_fs y) !! manifest_file "out" = Some text
      ∧ file_columns text = EmptyString :: manifest_columns
      ∧ map (λ line, length (split_comma line)) (text_lines text) = [9; 9; 9].
Proof.
  vm_compute. split_and!; [reflexivity..|]. eexists. split_and!; reflexivity.
Qed.

(** C8 as stated fails: in the run on the campaign ["small"] the stored
    file has nine fields in its header line, the first of them the empty
    label of the index column, not the eight labels alone. *)
Lemma manifest_file_has_index_column :
  let x := main Demo.lib Demo.net [1] [0; 1] ["small"%string] Demo.base_url
                "out" Demo.empty_fs in
  outcome x = Ok tt
  ∧ ∃ text,
      files (final_fs x) !! manifest_file "out" = Some text
      ∧ file_columns text = EmptyString :: manifest_columns
      ∧ file_columns text ≠ manifest_columns
      ∧ length (file_columns text) = 9.
Proof.
  vm_compute. split; [reflexivity|]. eexists. split; [reflexivity|].
  split; [reflexivity|]. split; [discriminate|reflexivity].
Qed.

(** * Further properties of the module *)

(** ** The enumerator as a function of the server's answers *)

(** [for x in l: s = g(s, x)] without effects. *)
Fixpoint fold_result {S A} (g : S → A → result S) (s : S) (l : list A)
  : result S :=
  match l with
  | [] => Ok s
  | x :: l' => let? s' := g s x in fold_result g s' l'
  end.

Section Enumeration.
Context (L : library) (N : network).

(** The ids listed on one media page of a deployment. *)
Definition page_ids (url : string) (deployment : pyval) (page : Z)
  : result (list pyval) :=
  let? r_text := session_get N (url +:+ "/api/media")
                             (media_params L deployment page) in
  let? pretty_json := of_option JSONDecodeError (json_loads L r_text) in
  let? num_results := py_get pretty_json "num_results" in
  listing_ids pretty_json.

(** The ids the enumerator collects for one deployment: those of page 1,
    then those of the pages [range(2, num_pages)]. *)
Definition deployment_media (url : string) (deployment : pyval)
  : result (list pyval) :=
  let? r_text := session_get N (url +:+ "/api/media")
                             (media_params L deployment 1) in
  let? pretty_json := of_option JSONDecodeError (json_loads L r_text) in
  let? num_results := py_get pretty_json "num_results" in
  let? ids := listing_ids pretty_json in
  let? num_pages := num_pages_of num_results in
  let? more := map_result (page_ids url deployment) (range 2 num_pages) in
  Ok (ids ++ concat more).

(** Every id paired with the deployment it was listed under. *)
Definition paired (deployments : list pyval) (ids : list (list pyval))
  : list pyval :=
  concat (zip_with (λ d l, replicate (length l) d) deployments ids).

Definition enumeration (url : string) (deployment_list : list pyval)
  : result (list pyval * list pyval) :=
  let? ls := map_result (deployment_media url) deployment_list in
  Ok (concat ls, paired deployment_list ls).

Lemma answers_for_each_fold {S A} (body : S → A → M S)
  (g : S → A → result S) :
  (∀ s x, answers (body s x) (g s x)) →
  ∀ l s, answers (for_each body s l) (fold_result g s l).
Proof.
  intros Hbody. induction l as [|x l IH]; intros s; cbn [for_each fold_result].
  - apply answers_ret.
  - apply answers_bind; [apply Hbody|]. intros s' _. apply IH.
Qed.

(** Appending the ids of a list of objects, one deployment each. *)
Lemma fold_append_media (deployment : pyval) (objs : list pyval) : ∀ acc,
  fold_result (λ (acc : list pyval * list pyval) obj,
                 let? i := py_get obj "id" in
                 Ok (fst acc ++ [i], snd acc ++ [deployment])) acc objs
  = (let? ids := map_result (λ obj, py_get obj "id") objs in
     Ok (fst acc ++ ids, snd acc ++ replicate (length ids) deployment)).
Proof.
  induction objs as [|obj objs IH]; intros acc; cbn [fold_result map_result].
  - cbn. rewrite !app_nil_r. by destruct acc.
  - destruct (py_get obj "id") as [i|e]; [|done]. cbn [rbind]. rewrite IH.
    cbn [fst snd]. destruct (map_result _ objs) as [ids|e]; [|done].
    cbn. by rewrite <- !app_assoc.
Qed.

Lemma append_media_answers deployment acc objs :
  answers (append_media deployment acc objs)
          (let? ids := map_result (λ obj, py_get obj "id") objs in
           Ok (fst acc ++ ids, snd acc ++ replicate (length ids) deployment)).
Proof.
  rewrite <- fold_append_media. unfold append_media.
  apply answers_for_each_fold. intros s obj.
  apply answers_bind; [apply answers_lift|]. intros i _. apply answers_ret.
Qed.

Lemma s_get_answers url params :
  answers (s_get N url params) (session_get N url params).
Proof.
  unfold s_get. intros fs. rewrite bind_emit. by destruct (session_get N _ _).
Qed.

Lemma media_page_body_answers url deployment acc page :
  answers (media_page_body L N url deployment acc page)
          (let? ids := page_ids url deployment page in
           Ok (fst acc ++ ids, snd acc ++ replicate (length ids) deployment)).
Proof.
  unfold media_page_body, page_ids, loads, listing_ids.
  intros fs. destruct (s_get_answers (url +:+ "/api/media")
                         (media_params L deployment page) fs) as [Ho Hf].
  rewrite run_bind.
  destruct (s_get N _ _ fs) as [[[r_text|e] f1] t1]; cbn in Ho, Hf; subst;
    rewrite <- Ho; [|done]. cbn [outcome final_fs fst snd rbind].
  destruct (json_loads L r_text) as [pj|]; [|done].
  cbn [of_option]. rewrite bind_lift_ok. cbn [rbind].
  destruct (py_get pj "num_results") as [nr|e]; [|done].
  rewrite bind_lift_ok. cbn [rbind].
  destruct (py_get pj "objects") as [objects|e]; [|done].
  rewrite bind_lift_ok. cbn [rbind].
  destruct (py_iter objects) as [objs|e]; [|done].
  rewrite bind_lift_ok. cbn [rbind].
  apply append_media_answers.
Qed.

Lemma fold_pages url deployment (pages : list Z) : ∀ acc,
  fold_result (λ (acc : list pyval * list pyval) page,
                 let? ids := page_ids url deployment page in
                 Ok (fst acc ++ ids,
                     snd acc ++ replicate (length ids) deployment)) acc pages
  = (let? more := map_result (page_ids url deployment) pages in
     Ok (fst acc ++ concat more,
         snd acc ++ replicate (length (concat more)) deployment)).
Proof.
  induction pages as [|page pages IH]; intros acc; cbn [fold_result map_result].
  - cbn. rewrite !app_nil_r. by destruct acc.
  - destruct (page_ids url deployment page) as [ids|e]; [|done].
    cbn [rbind]. rewrite IH. cbn [fst snd].
    destruct (map_result _ pages) as [more|e]; [|done].
    cbn. rewrite length_app, replicate_add. by rewrite <- !app_assoc.
Qed.

Lemma find_images_body_answers url acc deployment :
  answers (find_images_body L N url acc deployment)
          (let? ids := deployment_media url deployment in
           Ok (fst acc ++ ids, snd acc ++ replicate (length ids) deployment)).
Proof.
  unfold find_images_body, deployment_media, loads, listing_ids, print.
  intros fs. rewrite bind_emit. cbn [outcome final_fs fst snd].
  destruct (s_get_answers (url +:+ "/api/media")
              (media_params L deployment 1) fs) as [Ho Hf].
  rewrite run_bind.
  destruct (s_get N _ _ fs) as [[[r_text|e] f1] t1]; cbn in Ho, Hf; subst;
    rewrite <- Ho; [|done]. cbn [outcome final_fs fst snd rbind].
  destruct (json_loads L r_text) as [pj|]; [|done].
  cbn [of_option]. rewrite bind_lift_ok. cbn [rbind].
  destruct (py_get pj "num_results") as [nr|e]; [|done].
  rewrite bind_lift_ok. cbn [rbind].
  destruct (py_get pj "objects") as [objects|e]; [|done].
  rewrite bind_lift_ok. cbn [rbind].
  destruct (py_iter objects) as [objs|e]; [|done].
  rewrite bind_lift_ok. cbn [rbind].
  destruct (append_media_answers deployment acc objs fs) as [Ho' Hf'].
  rewrite run_bind.
  destruct (append_media deployment acc objs fs) as [[[acc1|e] f1] t2];
    cbn in Ho', Hf'; subst; destruct (map_result _ objs) as [ids|e'];
    cbn in Ho'; simplify_eq; [|done]. cbn [outcome final_fs fst snd rbind].
  destruct (num_pages_of nr) as [n|e]; [|done].
  rewrite bind_lift_ok. cbn [rbind].
  destruct (answers_for_each_fold _ _
              (media_page_body_answers url deployment) (range 2 n)
              (fst acc ++ ids, snd acc ++ replicate (length ids) deployment) fs)
    as [-> ->].
  rewrite fold_pages. cbn [fst snd]. split; [|done].
  destruct (map_result _ (range 2 n)) as [more|e]; [|done].
  cbn. by rewrite length_app, replicate_add, <- !app_assoc.
Qed.

Lemma fold_deployments url (deployments : list pyval) : ∀ acc,
  fold_result (λ (acc : list pyval * list pyval) deployment,
                 let? ids := deployment_media url deployment in
                 Ok (fst acc ++ ids,
                     snd acc ++ replicate (length ids) deployment))
              acc deployments
  = (let? ls := map_result (deployment_media url) deployments in
     Ok (fst acc ++ concat ls, snd acc ++ paired deployments ls)).
Proof.
  induction deployments as [|d deployments IH]; intros acc;
    cbn [fold_result map_result].
  - cbn. rewrite !app_nil_r. by destruct acc.
  - destruct (deployment_media url d) as [ids|e]; [|done].
    cbn [rbind]. rewrite IH. cbn [fst snd].
    destruct (map_result _ deployments) as [ls|e]; [|done].
    cbn. unfold paired. cbn. by rewrite <- !app_assoc.
Qed.

Lemma find_images_answers deployment_list url :
  answers (find_images_in_deployments L N deployment_list url)
          (enumeration url deployment_list).
Proof.
  unfold find_images_in_deployments, enumeration. intros fs.
  destruct (answers_for_each_fold _ _ (find_images_body_answers url)
              deployment_list ([], []) fs) as [-> ->].
  by rewrite fold_deployments.
Qed.

(** The enumerator returns, deployment after deployment, the ids of page 1
    followed by those of the pages 2 to [num_pages - 1], and beside each
    id the deployment it was listed under; or the first exception met in
    that order. *)
Theorem find_images_in_deployments_enumeration (deployment_list : list pyval)
  (url : string) (fs : filesystem) :
  outcome (find_images_in_deployments L N deployment_list url fs)
  = enumeration url deployment_list.
Proof. apply find_images_answers. Qed.

Lemma paired_length deployments ls :
  length deployments = length ls →
  length (paired deployments ls) = length (concat ls).
Proof.
  revert ls. induction deployments as [|d deployments IH]; intros [|l ls] Hlen;
    try done. unfold paired in *. cbn in *. rewrite !length_app, length_replicate.
  rewrite IH; [done|lia].
Qed.

Lemma paired_elem deployments ls d :
  d ∈ paired deployments ls → d ∈ deployments.
Proof.
  revert ls. induction deployments as [|d' deployments IH]; intros [|l ls];
    unfold paired in *; cbn; try by intros ?%elem_of_nil.
  rewrite elem_of_app. intros [[-> _]%elem_of_replicate | H].
  - by left.
  - right. by eapply IH.
Qed.

(** The two lists the enumerator returns are parallel: they have the same
    length, and the second holds only deployments of the input. *)
Theorem find_images_in_deployments_parallel (deployment_list : list pyval)
  (url : string) (fs : filesystem) (image_ids image_deployment : list pyval) :
  outcome (find_images_in_deployments L N deployment_list url fs)
    = Ok (image_ids, image_deployment) →
  length image_ids = length image_deployment
  ∧ ∀ d, d ∈ image_deployment → d ∈ deployment_list.
Proof.
  rewrite (proj1 (find_images_answers deployment_list url fs)).
  unfold enumeration.
  destruct (map_result _ deployment_list) as [ls|] eqn:Hls; [|done].
  cbn. intros [= <- <-]. apply map_result_Forall2, Forall2_length in Hls.
  split; [by rewrite paired_length|]. intros d. apply paired_elem.
Qed.

End Enumeration.

(** ** One file per (deployment, image) *)
Section Files.
Context (L : library) (N : network).

Lemma str_of_Z_inj a b : str_of_Z a = str_of_Z b → a = b.
Proof.
  unfold str_of_Z. intros H.
  assert (Hnil : ∀ z, Z.to_int z ≠ Decimal.Pos Decimal.Nil
                      ∧ Z.to_int z ≠ Decimal.Neg Decimal.Nil).
  { intros z. split; intros E; pose proof (f_equal Z.of_int E) as E';
      rewrite DecimalZ.of_to in E'; cbn in E'; subst z; discriminate E. }
  apply (f_equal NilZero.int_of_string) in H.
  rewrite !NilZero.isi in H by apply Hnil.
  injection H as H. by apply DecimalZ.to_int_inj.
Qed.

Lemma length_append s t :
  String.length (s +:+ t) = String.length s + String.length t.
Proof.
  induction s as [|c s IH]; [done|].
  change (String c s +:+ t) with (String c (s +:+ t)). cbn. by rewrite IH.
Qed.

Lemma append_inj_r t : ∀ s s', s +:+ t = s' +:+ t → s = s'.
Proof.
  induction s as [|c s IH]; intros [|c' s'] H.
  - done.
  - apply (f_equal String.length) in H. rewrite !length_append in H.
    cbn in H. lia.
  - apply (f_equal String.length) in H. rewrite !length_append in H.
    cbn in H. lia.
  - change (String c (s +:+ t) = String c' (s' +:+ t)) in H.
    injection H as -> H. f_equal. by apply IH.
Qed.

Lemma image_file_inj output d i d' i' :
  image_file output d i = image_file output d' i' → d = d' ∧ i = i'.
Proof.
  unfold image_file. intros H%app_inv_head. injection H as Hd Hi.
  split; [by apply str_of_Z_inj|]. by apply str_of_Z_inj, (append_inj_r ".png").
Qed.

(** Two downloads under the same output root whose ids differ as integers
    return different paths: no two rows of a manifest share a file. *)
Theorem download_image_url_distinct_files
  (url1 url2 deployment1 deployment2 image1 image2 : pyval)
  (output_folder : string) (fs1 fs2 : filesystem)
  (d1 d2 i1 i2 : Z) (f1 f2 : path) :
  py_int L deployment1 = Ok d1 → py_int L image1 = Ok i1 →
  py_int L deployment2 = Ok d2 → py_int L image2 = Ok i2 →
  (d1, i1) ≠ (d2, i2) →
  outcome (download_image_url L N
             (url1, deployment1, image1, output_folder) fs1) = Ok f1 →
  outcome (download_image_url L N
             (url2, deployment2, image2, output_folder) fs2) = Ok f2 →
  f1 ≠ f2.
Proof.
  intros Hd1 Hi1 Hd2 Hi2 Hne Hf1 Hf2.
  apply download_image_url_returns in Hf1 as (a & b & Ha & Hb & ->).
  apply download_image_url_returns in Hf2 as (a' & b' & Ha' & Hb' & ->).
  intros [-> ->]%image_file_inj. congruence.
Qed.

(** A row whose [image_url] cell is not a str (a pose record without
    [path_best] leaves [None] there) makes the download raise
    AttributeError before any request or file-system call. *)
Theorem download_image_url_needs_str (url deployment_id image_id : pyval)
  (output_folder : string) (fs : filesystem) :
  (∀ s, url ≠ PyStr s) →
  download_image_url L N (url, deployment_id, image_id, output_folder) fs
  = (Raise AttributeError, fs, []).
Proof.
  intros Hurl. unfold download_image_url.
  destruct url; try reflexivity. by destruct (Hurl s).
Qed.

End Files.

(** ** Requests, failures and the file system *)

Ltac trace_steps :=
  repeat first
    [ apply trace_lift_Forall
    | apply trace_ret_Forall
    | apply trace_emit_Forall; done
    | apply for_each_trace_Forall; intros
    | apply trace_bind_Forall; [|intros]
    | case_match ].

Ltac count_trace :=
  repeat (rewrite count_app || rewrite count_cons);
  repeat match goal with
         | H : Forall (λ e, ?Q e = true) ?t |- context [count ?P ?t] =>
             rewrite (count_zero P Q t) by (done || by intros [])
         end;
  cbn; try lia.

Section Behaviour.
Context (L : library) (N : network).

Definition campaign_request_event (url campaign_name : string) : event :=
  EvSessionGet (url +:+ "/api/deployment") (campaign_params L campaign_name).

Lemma filter_none (P : event → bool) t :
  Forall (λ e, P e = false) t → List.filter P t = [].
Proof. induction 1 as [|e t He _ IH]; [done|]. cbn. by rewrite He. Qed.

(** The loop body of the resolver makes one session request, whatever
    the answer. *)
Lemma find_deployments_body_requests url acc campaign_name fs :
  List.filter is_session_get
    (trace (find_deployments_body L N url acc campaign_name fs))
  = [campaign_request_event url campaign_name].
Proof.
  unfold find_deployments_body, print, s_get.
  rewrite bind_emit, bind_assoc, bind_emit. cbn [trace snd List.filter
    is_session_get]. f_equal. apply filter_none.
  unfold append_ids, loads. trace_steps.
Qed.

Lemma for_each_requests url : ∀ campaign_list acc fs,
  is_ok (outcome (for_each (find_deployments_body L N url) acc
                           campaign_list fs)) = true →
  List.filter is_session_get
    (trace (for_each (find_deployments_body L N url) acc campaign_list fs))
  = map (campaign_request_event url) campaign_list.
Proof.
  induction campaign_list as [|c l IH]; intros acc fs; cbn [for_each];
    [done|].
  rewrite run_bind.
  pose proof (find_deployments_body_requests url acc c fs) as Hc.
  destruct (find_deployments_body L N url acc c fs) as [[[acc1|e] f1] t1];
    cbn [outcome trace fst snd is_ok] in *; [|done].
  intros Hok. by rewrite List.filter_app, Hc, IH.
Qed.

(** A resolution that returns has made exactly one request per campaign
    name, in the order of the names: a deployment listing is never paged. *)
Theorem find_deployments_one_request_per_campaign
  (campaign_list : list string) (url : string) (fs : filesystem) :
  is_ok (outcome (find_deployments L N campaign_list url fs)) = true →
  List.filter is_session_get
    (trace (find_deployments L N campaign_list url fs))
  = map (campaign_request_event url) campaign_list.
Proof. apply for_each_requests. Qed.

Lemma map_result_fails {A B} (f : A → result B) (l : list A) a :
  a ∈ l → is_ok (f a) = false → is_ok (map_result f l) = false.
Proof.
  intros Ha Hf. induction Ha as [a l|a b l _ IH]; cbn.
  - by destruct (f a).
  - destruct (f b); [|done]. cbn. specialize (IH Hf).
    destruct (map_result f l); cbn in *; done.
Qed.

Lemma aggregator_fails sched url image_ids image_deployment fs fs' p :
  p ∈ zip image_ids image_deployment →
  is_ok (outcome (get_info_to_database L N url p fs')) = false →
  is_ok (outcome (get_image_pose_and_url L N sched url image_ids
                    image_deployment fs)) = false.
Proof.
  intros Hp Hfail. rewrite get_image_pose_and_url_outcome.
  rewrite (proj1 (get_info_answers L N url p fs')) in Hfail.
  assert (Hin : p ∈ imap_unordered default_processes sched
                      (zip image_ids image_deployment)).
  { by rewrite imap_unordered_perm by (unfold default_processes; lia). }
  pose proof (map_result_fails _ _ p Hin Hfail) as H.
  by destruct (map_result _ _).
Qed.

(** One unit of work that raises makes the aggregator raise, whatever the
    completion order: no manifest with a row missing is ever returned. *)
Theorem get_image_pose_and_url_fails_fast (sched : list nat) (url : string)
  (image_ids image_deployment : list pyval) (fs : filesystem)
  (p : pyval * pyval) :
  p ∈ zip image_ids image_deployment →
  is_ok (outcome (get_info_to_database L N url p fs)) = false →
  is_ok (outcome (get_image_pose_and_url L N sched url image_ids
                    image_deployment fs)) = false.
Proof. apply aggregator_fails. Qed.

(** A pose record without one of the coordinates makes the unit of work
    raise: [float(None)] is a TypeError. *)
Theorem pose_frame_needs_coordinates (image_id image_deployment : pyval)
  (r_text : string) (pretty_json : pyval) (pose : list (string * pyval))
  (label : string) :
  json_loads L r_text = Some pretty_json →
  py_get pretty_json "pose" = Ok (PyDict pose) →
  label ∈ ["lat"; "lon"; "dep"; "alt"]%string →
  assoc label pose = None →
  is_ok (pose_frame L image_id image_deployment r_text) = false.
Proof.
  intros Hjson Hpose Hlabel Hnone. unfold pose_frame.
  rewrite Hjson. cbn [of_option rbind].
  destruct (py_get pretty_json "media") as [media|]; [|done].
  cbn [rbind]. rewrite Hpose. cbn [rbind py_get].
  repeat (apply elem_of_cons in Hlabel as [-> | Hlabel]);
    [..|by apply elem_of_nil in Hlabel];
    rewrite Hnone; cbn [default py_float rbind is_ok];
    repeat match goal with
           | |- false = false => reflexivity
           | |- is_ok (rbind ?r _) = false =>
               destruct r; cbn [default py_float rbind is_ok]
           end.
Qed.

(** The resolver, the enumerator and the aggregator only read from the
    server: each leaves the file system as it found it. *)
Theorem sequential_stages_keep_file_system (sched : list nat)
  (campaign_list : list string) (deployment_list : list pyval)
  (image_ids image_deployment : list pyval) (url : string)
  (fs : filesystem) :
  final_fs (find_deployments L N campaign_list url fs) = fs
  ∧ final_fs (find_images_in_deployments L N deployment_list url fs) = fs
  ∧ final_fs (get_image_pose_and_url L N sched url image_ids
                image_deployment fs) = fs.
Proof.
  split_and!.
  - apply (for_each_answers_concat _ _ (find_deployments_body_answers L N url)).
  - apply find_images_answers.
  - by destruct (get_image_pose_and_url_run L N sched url image_ids
                   image_deployment fs) as (? & _ & ? & _).
Qed.

(** When one image's unit of work raises, the main block ends in an
    exception with the file system untouched: no output directory, no
    manifest file, no image. *)
Theorem main_stores_nothing_when_a_unit_fails
  (sched_meta sched_download : list nat) (campaign_list : list string)
  (url output : string) (fs : filesystem) (deployment_list : list pyval)
  (found : list pyval * list pyval) (p : pyval * pyval) :
  outcome (find_deployments L N campaign_list url fs) = Ok deployment_list →
  outcome (find_images_in_deployments L N deployment_list url fs) = Ok found →
  p ∈ zip (fst found) (snd found) →
  is_ok (outcome (get_info_to_database L N url p fs)) = false →
  let x := main L N sched_meta sched_download campaign_list url output fs in
  is_ok (outcome x) = false
  ∧ final_fs x = fs
  ∧ count is_to_csv (trace x) = 0
  ∧ count is_write_file (trace x) = 0.
Proof.
  intros Hdl Hfound Hp Hfail. cbn zeta. unfold main, print.
  rewrite run_bind.
  pose proof (find_deployments_quiet L N campaign_list url fs) as Hq1.
  pose proof (for_each_answers_concat _ _
                (find_deployments_body_answers L N url) campaign_list [] fs)
    as [_ Hf1].
  fold (find_deployments L N campaign_list url) in Hf1.
  destruct (find_deployments L N campaign_list url fs) as [[r1 f1] t1].
  cbn [outcome final_fs trace fst snd] in *. subst r1 f1.
  rewrite run_bind.
  pose proof (find_images_quiet L N deployment_list url fs) as Hq2.
  pose proof (find_images_answers L N deployment_list url fs) as [_ Hf2].
  destruct (find_images_in_deployments L N deployment_list url fs)
    as [[r2 f2] t2].
  cbn [outcome final_fs trace fst snd] in *. subst r2 f2.
  rewrite bind_emit. cbn [outcome final_fs trace fst snd].
  rewrite run_bind.
  pose proof (aggregator_fails sched_meta url (fst found) (snd found) fs fs p
                Hp Hfail) as Hagg.
  destruct (get_image_pose_and_url_run L N sched_meta url (fst found)
              (snd found) fs) as (tasks & Htasks & Hfs & Htrace & _).
  destruct (get_image_pose_and_url L N sched_meta url (fst found) (snd found) fs)
    as [[[db|e] f3] t3]; cbn [outcome final_fs trace fst snd is_ok] in *;
    [done|]. subst f3.
  destruct Htrace as [-> | ->]; (split_and!; [done|done|..]); count_trace.
Qed.

End Behaviour.

(** ** The further properties on the example catalog *)

Lemma find_images_in_deployments_parallel_witness :
  length (map (λ i, PyInt (500 + Z.of_nat i)) (seq 0 2))
  = length [PyInt 12; PyInt 12]
  ∧ ∀ d, d ∈ [PyInt 12; PyInt 12] → d ∈ [PyInt 11; PyInt 12].
Proof.
  apply (find_images_in_deployments_parallel Demo.lib Demo.net
           [PyInt 11; PyInt 12] Demo.base_url Demo.empty_fs).
  vm_compute. reflexivity.
Defined.

Lemma find_deployments_one_request_per_campaign_witness :
  List.filter is_session_get
    (trace (find_deployments Demo.lib Demo.net
              ["demo_campaign"; "down"; "overlap"]%string Demo.base_url
              Demo.empty_fs))
  = map (campaign_request_event Demo.lib Demo.base_url)
        ["demo_campaign"; "down"; "overlap"]%string.
Proof.
  apply (find_deployments_one_request_per_campaign Demo.lib Demo.net
           ["demo_campaign"; "down"; "overlap"]%string Demo.base_url
           Demo.empty_fs).
  vm_compute. reflexivity.
Defined.

Lemma get_image_pose_and_url_fails_fast_witness :
  is_ok (outcome (get_image_pose_and_url Demo.lib Demo.net [2; 0] Demo.base_url
                    [PyInt 500; PyInt 666; PyInt 501]
                    [PyInt 12; PyInt 12; PyInt 12] Demo.empty_fs)) = false.
Proof.
  apply (get_image_pose_and_url_fails_fast Demo.lib Demo.net [2; 0]
           Demo.base_url [PyInt 500; PyInt 666; PyInt 501]
           [PyInt 12; PyInt 12; PyInt 12] Demo.empty_fs (PyInt 666, PyInt 12)).
  - apply list_elem_of_In. right. left. reflexivity.
  - vm_compute. reflexivity.
Defined.

(** A pose record with every field but [dep]. *)
Definition pose_without_dep : string :=
  Demo.dumps (PyDict
    [("media"%string, PyDict [("path_best"%string, PyStr "http://x/1.jpg")]);
     ("pose"%string,
       PyDict [("timestamp"%string, PyStr "2020-01-01T00:00:00");
               ("lat"%string, PyStr "50.5");
               ("lon"%string, PyStr "-4.25");
               ("alt"%string, PyInt 3)])]).

Definition decoded (text : string) : pyval :=
  default PyNone (Demo.loads text).

Definition pose_of (v : pyval) : list (string * pyval) :=
  match py_get v "pose" with
  | Ok (PyDict pose) => pose
  | _ => []
  end.

Lemma pose_frame_needs_coordinates_witness :
  is_ok (pose_frame Demo.lib (PyInt 1) (PyInt 12) pose_without_dep) = false.
Proof.
  apply (pose_frame_needs_coordinates Demo.lib (PyInt 1) (PyInt 12)
           pose_without_dep (decoded pose_without_dep)
           (pose_of (decoded pose_without_dep)) "dep").
  - vm_compute. reflexivity.
  - vm_compute. reflexivity.
  - apply list_elem_of_In. right. right. left. reflexivity.
  - vm_compute. reflexivity.
Defined.

Lemma download_image_url_distinct_files_witness :
  image_file "out" 10 500 ≠ image_file "out" 10 501.
Proof.
  apply (download_image_url_distinct_files Demo.lib Demo.net
           (PyStr "http://x/500.jpg") (PyStr "http://x/501.jpg")
           (PyInt 10) (PyInt 10) (PyInt 500) (PyInt 501) "out"
           Demo.empty_fs Demo.empty_fs 10 10 500 501);
    [reflexivity|reflexivity|reflexivity|reflexivity|discriminate
    |vm_compute; reflexivity|vm_compute; reflexivity].
Defined.

Lemma download_image_url_needs_str_witness :
  download_image_url Demo.lib Demo.net (PyNone, PyInt 10, PyInt 500,
                                        "out"%string) Demo.empty_fs
  = (Raise AttributeError, Demo.empty_fs, []).
Proof.
  apply (download_image_url_needs_str Demo.lib Demo.net PyNone (PyInt 10)
           (PyInt 500) "out" Demo.empty_fs).
  discriminate.
Defined.

Lemma imap_unordered_bar_permutation_witness :
  ∃ res_list,
    outcome (imap_unordered_bar [2; 0; 1] (λ a : nat, ret (a * a)) [1; 2; 3; 4]
                                3 Demo.empty_fs) = Ok res_list
    ∧ res_list ≡ₚ map (λ a, a * a) [1; 2; 3; 4].
Proof.
  apply (imap_unordered_bar_permutation [2; 0; 1] (λ a : nat, ret (a * a))
           (λ a, a * a) [1; 2; 3; 4] 3 Demo.empty_fs).
  - lia.
  - intros a fs. split; reflexivity.
Defined.

(** The example server, except that the pose record of image 501 is a
    server error page. *)
Definition net_without_501 : network := {|
  session_get := session_get Demo.net;
  requests_get := λ url,
    if String.eqb url (pose_url Demo.lib Demo.base_url (PyInt 501))
    then Ok Demo.error_500
    else requests_get Demo.net url
|}.

Lemma main_stores_nothing_when_a_unit_fails_witness :
  let x := main Demo.lib net_without_501 [1] [] ["small"%string] Demo.base_url
                "out" Demo.empty_fs in
  is_ok (outcome x) = false ∧ final_fs x = Demo.empty_fs
  ∧ count is_to_csv (trace x) = 0 ∧ count is_write_file (trace x) = 0.
Proof.
  apply (main_stores_nothing_when_a_unit_fails Demo.lib net_without_501 [1] []
           ["small"%string] Demo.base_url "out" Demo.empty_fs [PyInt 12]
           ([PyInt 500; PyInt 501], [PyInt 12; PyInt 12])
           (PyInt 501, PyInt 12)).
  - vm_compute. reflexivity.
  - vm_compute. reflexivity.
  - apply list_elem_of_In. right. left. reflexivity.
  - vm_compute. reflexivity.
Defined.

(** ** The pages the enumerator asks for *)
Section Pages.
Context (L : library) (N : network).

Definition media_request_event (url : string) (deployment : pyval) (page : Z)
  : event :=
  EvSessionGet (url +:+ "/api/media") (media_params L deployment page).

Lemma Forall_False_nil {A} (l : list A) : Forall (λ _, False) l → l = [].
Proof. by destruct 1. Qed.

Lemma media_page_body_trace url deployment acc page fs :
  trace (media_page_body L N url deployment acc page fs)
  = [media_request_event url deployment page].
Proof.
  unfold media_page_body, s_get. rewrite bind_assoc, bind_emit.
  cbn [trace snd]. f_equal. apply Forall_False_nil.
  unfold append_media, loads. trace_steps.
Qed.

Lemma media_pages_trace url deployment : ∀ pages acc fs,
  is_ok (outcome (for_each (media_page_body L N url deployment) acc pages fs))
    = true →
  trace (for_each (media_page_body L N url deployment) acc pages fs)
  = map (media_request_event url deployment) pages.
Proof.
  induction pages as [|page pages IH]; intros acc fs; cbn [for_each]; [done|].
  rewrite run_bind.
  pose proof (media_page_body_trace url deployment acc page fs) as Hp.
  destruct (media_page_body L N url deployment acc page fs)
    as [[[acc1|e] f1] t1]; cbn [outcome trace fst snd is_ok] in *; [|done].
  intros Hok. by rewrite Hp, IH.
Qed.

(** [range(a, b)] holds the integers from [a] up to, not including, [b]. *)
Lemma elem_of_range a b p : p ∈ range a b ↔ (a ≤ p < b)%Z.
Proof.
  unfold range. rewrite list_elem_of_fmap. split.
  - intros (i & -> & Hi%elem_of_seq). lia.
  - intros Hp. exists (Z.to_nat (p - a)). split; [lia|].
    apply elem_of_seq. lia.
Qed.

Lemma media_request_event_inj url deployment p q :
  media_request_event url deployment p = media_request_event url deployment q →
  p = q.
Proof. by intros [= ?]. Qed.

(** For a deployment that is enumerated, the session requests of the loop
    body are those for page 1 and for the pages of [range(2, num_pages)],
    in this order, where [num_pages] comes from the [num_results] of page
    1.  So the media request for a page is made exactly when the page is 1
    or lies from 2 up to, not including, [num_pages]: with two pages or
    more, page [num_pages] itself is not requested; with one page or none,
    page 1 is the only request. *)
Theorem find_images_body_pages (url : string)
  (acc : list pyval * list pyval) (deployment : pyval) (fs : filesystem) :
  is_ok (outcome (find_images_body L N url acc deployment fs)) = true →
  ∃ r_text pretty_json num_results num_pages,
    session_get N (url +:+ "/api/media") (media_params L deployment 1)
      = Ok r_text
    ∧ json_loads L r_text = Some pretty_json
    ∧ py_get pretty_json "num_results" = Ok num_results
    ∧ num_pages_of num_results = Ok num_pages
    ∧ List.filter is_session_get
        (trace (find_images_body L N url acc deployment fs))
      = map (media_request_event url deployment) (1%Z :: range 2 num_pages)
    ∧ (∀ page,
         media_request_event url deployment page
           ∈ trace (find_images_body L N url acc deployment fs)
         ↔ (page = 1 ∨ 2 ≤ page < num_pages)%Z)
    ∧ ((2 ≤ num_pages)%Z →
       media_request_event url deployment num_pages
         ∉ trace (find_images_body L N url acc deployment fs))
    ∧ ((num_pages ≤ 2)%Z →
       List.filter is_session_get
         (trace (find_images_body L N url acc deployment fs))
       = [media_request_event url deployment 1]).
Proof.
  intros Hrun.
  assert (∃ r_text pretty_json num_results num_pages,
    session_get N (url +:+ "/api/media") (media_params L deployment 1)
      = Ok r_text
    ∧ json_loads L r_text = Some pretty_json
    ∧ py_get pretty_json "num_results" = Ok num_results
    ∧ num_pages_of num_results = Ok num_pages
    ∧ List.filter is_session_get
        (trace (find_images_body L N url acc deployment fs))
      = map (media_request_event url deployment) (1%Z :: range 2 num_pages))
    as (r_text & pj & nr & n & Hget & Hjson & Hnr & Hn & Hpages).
  { revert Hrun. unfold find_images_body, print, s_get, loads.
    rewrite bind_emit, bind_assoc, bind_emit. cbn [outcome trace fst snd].
    destruct (session_get N _ _) as [r_text|e] eqn:Hget; [|done].
    rewrite bind_lift_ok.
    destruct (json_loads L r_text) as [pj|] eqn:Hjson; [|done].
    cbn [of_option]. rewrite bind_lift_ok.
    destruct (py_get pj "num_results") as [nr|e] eqn:Hnr; [|done].
    rewrite bind_lift_ok.
    destruct (py_get pj "objects") as [objects|e]; [|done].
    rewrite bind_lift_ok.
    destruct (py_iter objects) as [objs|e]; [|done].
    rewrite bind_lift_ok, run_bind.
    assert (Hquiet : trace (append_media deployment acc objs fs) = []).
    { apply Forall_False_nil. unfold append_media. trace_steps. }
    destruct (append_media deployment acc objs fs) as [[[acc1|e] f1] t1];
      cbn [outcome trace fst snd] in *; [|done]. subst t1.
    destruct (num_pages_of nr) as [n|e] eqn:Hn; [|done].
    rewrite bind_lift_ok. intros Hok.
    exists r_text, pj, nr, n. split_and!; try done.
    cbn [app List.filter is_session_get map]. f_equal.
    rewrite (media_pages_trace url deployment _ _ _ Hok).
    clear. induction (range 2 n) as [|p l IH]; [done|]. cbn. by rewrite IH. }
  assert (∀ page,
            media_request_event url deployment page
              ∈ trace (find_images_body L N url acc deployment fs)
            ↔ (page = 1 ∨ 2 ≤ page < n)%Z) as Hiff.
  { intros page. rewrite list_elem_of_In.
    transitivity (In (media_request_event url deployment page)
                    (List.filter is_session_get
                       (trace (find_images_body L N url acc deployment fs)))).
    { rewrite filter_In. cbn [media_request_event is_session_get]. tauto. }
    rewrite Hpages, in_map_iff. split.
    - intros (q & Hq%media_request_event_inj & [H1 | Hin]); subst q.
      + by left.
      + right. by apply elem_of_range, list_elem_of_In.
    - intros Hp. exists page. split; [done|]. destruct Hp as [-> | Hp].
      + by left.
      + right. by apply list_elem_of_In, elem_of_range. }
  exists r_text, pj, nr, n. split_and!; try done.
  - intros Hn2 Hin%Hiff. lia.
  - intros Hn2. rewrite Hpages. unfold range.
    replace (Z.to_nat (n - 2)) with 0 by lia. done.
Qed.

End Pages.

(** ** The number of pages *)

(** [num_pages_of] on the ints from [lo] on, [fuel] of them, against the
    integer ceiling of a hundredth. *)
Fixpoint pages_agree (fuel : nat) (lo : Z) : bool :=
  match fuel with
  | O => true
  | S fuel' =>
      match num_pages_of (PyInt lo) with
      | Ok n => if (n =? (lo + 99) / 100)%Z then pages_agree fuel' (lo + 1)
                else false
      | Raise _ => false
      end
  end.

Lemma pages_agree_spec fuel : ∀ lo r,
  pages_agree fuel lo = true → (lo ≤ r < lo + Z.of_nat fuel)%Z →
  num_pages_of (PyInt r) = Ok ((r + 99) / 100)%Z.
Proof.
  induction fuel as [|fuel IH]; intros lo r Hagree Hr; [lia|].
  cbn [pages_agree] in Hagree.
  destruct (num_pages_of (PyInt lo)) as [n|] eqn:Hn; [|done].
  destruct (n =? (lo + 99) / 100)%Z eqn:E; [|done].
  apply Z.eqb_eq in E. subst n.
  destruct (decide (r = lo)) as [-> | Hne]; [done|].
  apply (IH (lo + 1)%Z); [done|lia].
Qed.

(** For every count of results up to twenty thousand, the float
    division and [math.ceil] give the integer ceiling of
    [num_results / 100]. *)
Theorem num_pages_is_ceiling (num_results : Z) :
  (0 ≤ num_results ≤ 20000)%Z →
  num_pages_of (PyInt num_results) = Ok ((num_results + 99) / 100)%Z.
Proof.
  intros H. apply (pages_agree_spec (Z.to_nat 20001) 0).
  - vm_compute. reflexivity.
  - rewrite Z2Nat.id; lia.
Qed.

Lemma num_pages_is_ceiling_witness :
  num_pages_of (PyInt 150) = Ok ((150 + 99) / 100)%Z.
Proof. apply (num_pages_is_ceiling 150). lia. Defined.

(** ** The pool, for any task function *)
Section AnyTask.
Context {A B : Type} (func : A → M B).

Lemma collect_length : ∀ (order : list A) (acc : list B) fs res_list,
  outcome (for_each (λ res_list a, let* res := func a in ret (res_list ++ [res]))
                    acc order fs) = Ok res_list →
  length res_list = length acc + length order.
Proof.
  induction order as [|a order IH]; intros acc fs res_list; cbn [for_each].
  - intros [= <-]. cbn. lia.
  - rewrite bind_assoc, run_bind.
    destruct (func a fs) as [[[b|e] f1] t1]; [|done].
    cbn [outcome fst snd]. rewrite bind_ret. intros H%IH.
    rewrite length_app in H. cbn in *. lia.
Qed.

(** Whenever the map returns, it returns one result per input, whatever
    the task function does, the width of the pool and the order of
    completion. *)
Theorem imap_unordered_bar_one_result_per_input (sched : list nat)
  (args : list A) (n_processes : nat) (fs : filesystem) (res_list : list B) :
  0 < n_processes →
  outcome (imap_unordered_bar sched func args n_processes fs) = Ok res_list →
  length res_list = length args.
Proof.
  intros Hn. rewrite imap_unordered_bar_run by done.
  destruct (outcome (for_each _ _ _ _)) as [res|e] eqn:Hloop; [|done].
  cbn [outcome fst]. intros [= <-]. apply collect_length in Hloop.
  rewrite Hloop. cbn. apply Permutation_length, imap_unordered_perm. done.
Qed.

(** The pool is closed and joined after the loop over the results: when
    a task raises, the exception leaves the function before that and the
    pool is neither closed nor joined. *)
Theorem imap_unordered_bar_closes_on_success_only (sched : list nat)
  (args : list A) (n_processes : nat) (fs : filesystem) :
  0 < n_processes →
  (∀ a fs', Forall (λ e, e ≠ EvPoolClose ∧ e ≠ EvPoolJoin)
                   (trace (func a fs'))) →
  let x := imap_unordered_bar sched func args n_processes fs in
  (is_ok (outcome x) = true →
   ∃ t, trace x = EvPoolOpen n_processes :: t ++ [EvPoolClose; EvPoolJoin])
  ∧ (is_ok (outcome x) = false →
     (EvPoolClose ∉ trace x) ∧ (EvPoolJoin ∉ trace x)).
Proof.
  intros Hn Hfunc. cbn zeta. rewrite imap_unordered_bar_run by done.
  set (loop := for_each _ _ _ _).
  assert (Hloop : Forall (λ e, e ≠ EvPoolClose ∧ e ≠ EvPoolJoin) (trace loop)).
  { apply for_each_trace_Forall. intros s a fs'.
    apply trace_bind_Forall; [apply Hfunc|]. intros. apply trace_ret_Forall. }
  destruct (outcome loop) as [res|e]; cbn [outcome trace fst snd is_ok].
  - split; [eauto|done].
  - split; [done|]. intros _. rewrite Forall_forall in Hloop.
    split; intros [|H]%elem_of_cons; try done; by destruct (Hloop _ H).
Qed.

End AnyTask.

Lemma imap_unordered_bar_one_result_per_input_witness :
  length [image_file "out" 12 500; image_file "out" 12 501]
  = length [(PyStr "http://x/501.jpg", PyInt 12, PyInt 501, "out"%string);
            (PyStr "http://x/500.jpg", PyInt 12, PyInt 500, "out"%string)].
Proof.
  apply (imap_unordered_bar_one_result_per_input
           (download_image_url Demo.lib Demo.net) [1]
           [(PyStr "http://x/501.jpg", PyInt 12, PyInt 501, "out"%string);
            (PyStr "http://x/500.jpg", PyInt 12, PyInt 500, "out"%string)]
           2 Demo.empty_fs).
  - lia.
  - vm_compute. reflexivity.
Defined.

Lemma imap_unordered_bar_closes_on_success_only_witness :
  let x := imap_unordered_bar [1] (download_image_url Demo.lib Demo.net)
             [(PyStr "http://x/501.jpg", PyInt 12, PyInt 501, "out"%string);
              (PyNone, PyInt 12, PyInt 500, "out"%string)]
             2 Demo.empty_fs in
  (is_ok (outcome x) = true →
   ∃ t, trace x = EvPoolOpen 2 :: t ++ [EvPoolClose; EvPoolJoin])
  ∧ (is_ok (outcome x) = false →
     (EvPoolClose ∉ trace x) ∧ (EvPoolJoin ∉ trace x)).
Proof.
  apply (imap_unordered_bar_closes_on_success_only
           (download_image_url Demo.lib Demo.net) [1]
           [(PyStr "http://x/501.jpg", PyInt 12, PyInt 501, "out"%string);
            (PyNone, PyInt 12, PyInt 500, "out"%string)]
           2 Demo.empty_fs).
  - lia.
  - intros a fs'. eapply Forall_impl; [apply download_image_url_steps|].
    intros e He. split; intros ->; discriminate He.
Defined.

Lemma find_images_body_pages_witness :
  let x := find_images_body Demo.lib Demo.net Demo.base_url ([], [])
             (PyInt 10) Demo.empty_fs in
  let y := find_images_body Demo.lib Demo.net Demo.base_url ([], [])
             (PyInt 12) Demo.empty_fs in
  let page := media_request_event Demo.lib Demo.base_url in
  is_ok (outcome x) = true
  ∧ num_pages_of (PyInt 150) = Ok 2%Z
  ∧ List.filter is_session_get (trace x) = [page (PyInt 10) 1%Z]
  ∧ (page (PyInt 10) 2%Z ∉ trace x)
  ∧ is_ok (outcome y) = true
  ∧ num_pages_of (PyInt 2) = Ok 1%Z
  ∧ List.filter is_session_get (trace y) = [page (PyInt 12) 1%Z]
  ∧ (page (PyInt 12) 1%Z ∈ trace y).
Proof.
  cbn zeta.
  destruct (find_images_body_pages Demo.lib Demo.net Demo.base_url ([], [])
              (PyInt 10) Demo.empty_fs eq_refl)
    as (r_text & pj & nr & n & Hget & Hjson & Hnr & Hn & Hpages & Hiff
        & Hlast & Hone).
  assert (n = 2%Z) as ->.
  { vm_compute in Hget. injection Hget as <-.
    vm_compute in Hjson. injection Hjson as <-.
    vm_compute in Hnr. injection Hnr as <-.
    vm_compute in Hn. by injection Hn as <-. }
  destruct (find_images_body_pages Demo.lib Demo.net Demo.base_url ([], [])
              (PyInt 12) Demo.empty_fs eq_refl)
    as (r_text' & pj' & nr' & n' & Hget' & Hjson' & Hnr' & Hn' & Hpages'
        & Hiff' & Hlast' & Hone').
  assert (n' = 1%Z) as ->.
  { vm_compute in Hget'. injection Hget' as <-.
    vm_compute in Hjson'. injection Hjson' as <-.
    vm_compute in Hnr'. injection Hnr' as <-.
    vm_compute in Hn'. by injection Hn' as <-. }
  split_and!; [reflexivity|vm_compute; reflexivity|apply Hone; lia
              |apply Hlast; lia|reflexivity|vm_compute; reflexivity
              |apply Hone'; lia|apply Hiff'; by left].
Defined.
